(** * Banana-ripeness front end: the capture / analyze workflow of [page.js]

    A shallow embedding of the [Page] component of [src/app/page.js]: its
    React state (the seven [useState] cells), the [streamRef] reference, the
    part of the browser the handlers talk to (live media streams, object
    URLs), the event handlers, and the part of the JSX that decides which
    handler a click can reach and what the result panel shows.

    Conventions.
    - A handler is an action of a small state-and-exception monad, so that
      the code's [try / catch / finally] and its early [return]s are written
      as they are in the source.
    - What the environment answers at an [await] (the camera permission, the
      canvas encoder, the HTTP call) is a parameter of the handler, and a
      handler is run to completion with that answer.  [analyze] is also
      given in two halves, before and after its [await].
    - An operation ([Op], [step]) is a click as the page offers it: a button
      that is not rendered, or is disabled, reaches no handler.
    - The browser's side is kept with the state: the streams whose tracks
      run and the object URLs that are live.  [stepLog] records the values
      passed to [setStepIndex].
    - JavaScript numbers are modelled by the rationals together with [NaN]
      and the two infinities; products are exact.  The properties proved
      about them only compare values, so they do not depend on rounding.
    - The fields of the service's answer have the types of its contract: a
      field is missing, [null], or a value of its type. *)

From Stdlib Require Import ZArith QArith Qround List String Bool Lia.
From Stdlib Require Import Lqa.
Import ListNotations.
Local Close Scope Q_scope.
Local Open Scope string_scope.

(* ------------------------------------------------------------------ *)
(** ** JavaScript values *)

(** A property that may be missing ([undefined]), [null] or present. *)
Inductive js (A : Type) : Type :=
| undefined
| null
| val (a : A).
Arguments undefined {A}.
Arguments null {A}.
Arguments val {A} a.

(** A JavaScript number. *)
Inductive number : Type :=
| NaN
| Infinity
| NegInfinity
| Num (q : Q).

(** Truthiness, as used by [!x], [x && ...] and [x || d]. *)
Definition truthy_bool (x : js bool) : bool :=
  match x with val true => true | _ => false end.

Definition truthy_number (x : number) : bool :=
  match x with
  | NaN => false
  | Num q => negb (Qeq_bool q 0)
  | Infinity | NegInfinity => true
  end.

(** [s || d] on strings: the empty string is falsy. *)
Definition str_or (s d : string) : string :=
  if (s =? "")%string then d else s.

(** [x || d] where [x] is a possibly missing string property. *)
Definition js_str_or (x : js string) (d : string) : string :=
  match x with val s => str_or s d | _ => d end.

(** [x || 0] where [x] is a possibly missing number property. *)
Definition js_num_or0 (x : js number) : number :=
  match x with
  | val n => if truthy_number n then n else Num 0
  | _ => Num 0
  end.

(** [x * 100].  The code's product is the double nearest to the exact one;
    the model keeps the exact one.  Rounding to the nearest double is
    monotone and leaves 0 and 100 as they are, and the theorems about the
    bar use no more than that: they bound and compare widths, and never
    state the value of a product. *)
Definition times100 (x : number) : number :=
  match x with
  | Num q => Num (q * 100)
  | other => other
  end.

(** [Math.max(0, x)] and [Math.min(100, x)]. *)
Definition Math_max0 (x : number) : number :=
  match x with
  | NaN => NaN
  | Infinity => Infinity
  | NegInfinity => Num 0
  | Num q => if Qle_bool q 0 then Num 0 else Num q
  end.

Definition Math_min100 (x : number) : number :=
  match x with
  | NaN => NaN
  | Infinity => Num 100
  | NegInfinity => NegInfinity
  | Num q => if Qle_bool 100 q then Num 100 else Num q
  end.

(** [Math.round(x)]: the nearest integer, halves towards plus infinity. *)
Definition Math_round (x : number) : number :=
  match x with
  | Num q => Num (inject_Z (Qfloor (q + (1 # 2))))
  | other => other
  end.

(* ------------------------------------------------------------------ *)
(** ** The service's response *)

Module Resp.

Record Warnings : Type := mkWarnings {
  too_dark : js bool;
  too_blurry : js bool
}.

(** The JSON object the service answers with (spec, section 6). *)
Record Data : Type := mkData {
  is_banana : js bool;
  ripeness : js string;
  confidence : js number;
  banana_confidence : js number;
  warnings : js Warnings;
  error : js string
}.

(** [result?.warnings?.too_dark], [result?.warnings?.too_blurry]. *)
Definition warns_too_dark (d : Data) : bool :=
  match warnings d with val w => truthy_bool (too_dark w) | _ => false end.

Definition warns_too_blurry (d : Data) : bool :=
  match warnings d with val w => truthy_bool (too_blurry w) | _ => false end.

End Resp.

(** What [res.json()] does with the body: it rejects with a [SyntaxError]
    carrying [msg] when the body is not JSON, and otherwise yields the parsed
    value, [None] standing for the JSON value [null]. *)
Inductive Body : Type :=
| NotJson (msg : string)
| Json (data : option Resp.Data).

Record Response : Type := mkResponse {
  ok : bool;
  body : Body
}.

(** What [fetch] does: it rejects with an error carrying [msg] when the
    transport fails, and otherwise resolves with a response. *)
Inductive FetchOutcome : Type :=
| NetworkError (msg : string)
| Responded (res : Response).

(* ------------------------------------------------------------------ *)
(** ** Images, streams and the page state *)

Definition Stream := nat.
Definition URL := nat.
Definition File := nat.

(** The video element: [videoWidth] and [videoHeight] are 0 while the
    dimensions are not known. *)
Record Video : Type := mkVideo {
  videoWidth : N;
  videoHeight : N
}.

(** An image payload: a frame encoded by [canvas.toBlob(_, type, quality)]
    from a canvas of the given size, or a file the user picked. *)
Inductive Blob : Type :=
| CanvasBlob (width height : N) (type : string) (quality : Q)
| FileBlob (file : File).

Inductive Mode : Type := Idle | Camera | Preview | Analyzing | Result.

Definition Mode_eqb (a b : Mode) : bool :=
  match a, b with
  | Idle, Idle | Camera, Camera | Preview, Preview
  | Analyzing, Analyzing | Result, Result => true
  | _, _ => false
  end.

Definition STAGES : list string :=
  ["Image Selected"; "Banana Check"; "Ripeness Result"].

Record State : Type := mkState {
  (* useState *)
  mode : Mode;
  imageURL : option URL;
  imageBlob : option Blob;
  stepIndex : Z;
  error : option string;
  result : option Resp.Data;
  busy : bool;
  (* useRef *)
  streamRef : option Stream;
  (* the browser: streams whose tracks run, object URLs not revoked, and
     the identities the next stream and the next object URL will get *)
  liveStreams : list Stream;
  nextStream : Stream;
  objectURLs : list URL;
  nextURL : URL;
  (* history: every value passed to setStepIndex, oldest first *)
  stepLog : list Z
}.

(** The component as first rendered. *)
Definition init : State :=
  {| mode := Idle; imageURL := None; imageBlob := None; stepIndex := (-1)%Z;
     error := None; result := None; busy := false; streamRef := None;
     liveStreams := []; nextStream := 0; objectURLs := []; nextURL := 0;
     stepLog := [] |}.

(* ------------------------------------------------------------------ *)
(** ** Actions: state passing with exceptions *)

Record Exn : Type := mkExn { message : string }.

Inductive Completion (A : Type) : Type :=
| Normal (a : A)
| Thrown (e : Exn).
Arguments Normal {A} a.
Arguments Thrown {A} e.

Definition Act (A : Type) : Type := State -> Completion A * State.

Definition ret {A} (a : A) : Act A := fun s => (Normal a, s).

Definition bind {A B} (m : Act A) (f : A -> Act B) : Act B :=
  fun s =>
    match m s with
    | (Normal a, s') => f a s'
    | (Thrown e, s') => (Thrown e, s')
    end.

Definition throw {A} (e : Exn) : Act A := fun s => (Thrown e, s).

(** [try { body } catch (e) { handler e }]. *)
Definition try_catch {A} (tried : Act A) (handler : Exn -> Act A) : Act A :=
  fun s =>
    match tried s with
    | (Normal a, s') => (Normal a, s')
    | (Thrown e, s') => handler e s'
    end.

(** [try { body } catch (e) { handler e } finally { fin }]. *)
Definition try_catch_finally {A} (tried : Act A) (handler : Exn -> Act A)
    (fin : Act unit) : Act A :=
  fun s =>
    match try_catch tried handler s with
    | (c, s') =>
        match fin s' with
        | (Normal _, s'') => (c, s'')
        | (Thrown e, s'') => (Thrown e, s'')
        end
    end.

(** Reading a cell of the state. *)
Definition read {A} (f : State -> A) : Act A := fun s => (Normal (f s), s).

(** The state a handler leaves behind. *)
Definition exec {A} (m : Act A) (s : State) : State := snd (m s).

Declare Scope act_scope.
Delimit Scope act_scope with act.
Notation "x <- m ;; k" := (bind m (fun x => k))
  (at level 61, m at next level, right associativity) : act_scope.
Notation "m ;; k" := (bind m (fun _ => k))
  (at level 61, right associativity) : act_scope.
Local Open Scope act_scope.

(* ------------------------------------------------------------------ *)
(** ** State setters and browser calls *)

Definition setMode (m : Mode) : Act unit := fun s =>
  (Normal tt,
   {| mode := m; imageURL := imageURL s; imageBlob := imageBlob s;
      stepIndex := stepIndex s; error := error s; result := result s;
      busy := busy s; streamRef := streamRef s;
      liveStreams := liveStreams s; nextStream := nextStream s;
      objectURLs := objectURLs s; nextURL := nextURL s;
      stepLog := stepLog s |}).

Definition setImageURL (u : option URL) : Act unit := fun s =>
  (Normal tt,
   {| mode := mode s; imageURL := u; imageBlob := imageBlob s;
      stepIndex := stepIndex s; error := error s; result := result s;
      busy := busy s; streamRef := streamRef s;
      liveStreams := liveStreams s; nextStream := nextStream s;
      objectURLs := objectURLs s; nextURL := nextURL s;
      stepLog := stepLog s |}).

Definition setImageBlob (b : option Blob) : Act unit := fun s =>
  (Normal tt,
   {| mode := mode s; imageURL := imageURL s; imageBlob := b;
      stepIndex := stepIndex s; error := error s; result := result s;
      busy := busy s; streamRef := streamRef s;
      liveStreams := liveStreams s; nextStream := nextStream s;
      objectURLs := objectURLs s; nextURL := nextURL s;
      stepLog := stepLog s |}).

Definition setStepIndex (i : Z) : Act unit := fun s =>
  (Normal tt,
   {| mode := mode s; imageURL := imageURL s; imageBlob := imageBlob s;
      stepIndex := i; error := error s; result := result s;
      busy := busy s; streamRef := streamRef s;
      liveStreams := liveStreams s; nextStream := nextStream s;
      objectURLs := objectURLs s; nextURL := nextURL s;
      stepLog := stepLog s ++ [i] |}).

Definition setError (e : option string) : Act unit := fun s =>
  (Normal tt,
   {| mode := mode s; imageURL := imageURL s; imageBlob := imageBlob s;
      stepIndex := stepIndex s; error := e; result := result s;
      busy := busy s; streamRef := streamRef s;
      liveStreams := liveStreams s; nextStream := nextStream s;
      objectURLs := objectURLs s; nextURL := nextURL s;
      stepLog := stepLog s |}).

Definition setResult (r : option Resp.Data) : Act unit := fun s =>
  (Normal tt,
   {| mode := mode s; imageURL := imageURL s; imageBlob := imageBlob s;
      stepIndex := stepIndex s; error := error s; result := r;
      busy := busy s; streamRef := streamRef s;
      liveStreams := liveStreams s; nextStream := nextStream s;
      objectURLs := objectURLs s; nextURL := nextURL s;
      stepLog := stepLog s |}).

Definition setBusy (b : bool) : Act unit := fun s =>
  (Normal tt,
   {| mode := mode s; imageURL := imageURL s; imageBlob := imageBlob s;
      stepIndex := stepIndex s; error := error s; result := result s;
      busy := b; streamRef := streamRef s;
      liveStreams := liveStreams s; nextStream := nextStream s;
      objectURLs := objectURLs s; nextURL := nextURL s;
      stepLog := stepLog s |}).

(** [streamRef.current = r]. *)
Definition setStreamRef (r : option Stream) : Act unit := fun s =>
  (Normal tt,
   {| mode := mode s; imageURL := imageURL s; imageBlob := imageBlob s;
      stepIndex := stepIndex s; error := error s; result := result s;
      busy := busy s; streamRef := r;
      liveStreams := liveStreams s; nextStream := nextStream s;
      objectURLs := objectURLs s; nextURL := nextURL s;
      stepLog := stepLog s |}).

(** What the user and the device answer to [getUserMedia]: the request is
    denied (or no device is available), or a stream is granted; [plays] tells
    whether [video.play()] then succeeds. *)
Inductive CameraOutcome : Type :=
| Denied
| Granted (plays : bool).

(** [navigator.mediaDevices.getUserMedia(...)]: rejects, or resolves with a
    new stream whose tracks are running. *)
Definition getUserMedia (o : CameraOutcome) : Act Stream := fun s =>
  match o with
  | Denied => (Thrown (mkExn "NotAllowedError"), s)
  | Granted _ =>
      (Normal (nextStream s),
       {| mode := mode s; imageURL := imageURL s; imageBlob := imageBlob s;
          stepIndex := stepIndex s; error := error s; result := result s;
          busy := busy s; streamRef := streamRef s;
          liveStreams := nextStream s :: liveStreams s;
          nextStream := S (nextStream s);
          objectURLs := objectURLs s; nextURL := nextURL s;
          stepLog := stepLog s |})
  end.

(** [videoRef.current.play()]. *)
Definition play (o : CameraOutcome) : Act unit :=
  match o with
  | Granted true => ret tt
  | _ => throw (mkExn "NotAllowedError")
  end.

(** [stream.getTracks().forEach((t) => t.stop())]. *)
Definition stopTracks (st : Stream) : Act unit := fun s =>
  (Normal tt,
   {| mode := mode s; imageURL := imageURL s; imageBlob := imageBlob s;
      stepIndex := stepIndex s; error := error s; result := result s;
      busy := busy s; streamRef := streamRef s;
      liveStreams := remove Nat.eq_dec st (liveStreams s);
      nextStream := nextStream s;
      objectURLs := objectURLs s; nextURL := nextURL s;
      stepLog := stepLog s |}).

(** [URL.createObjectURL(blob)]: a new URL, live until revoked. *)
Definition createObjectURL : Act URL := fun s =>
  (Normal (nextURL s),
   {| mode := mode s; imageURL := imageURL s; imageBlob := imageBlob s;
      stepIndex := stepIndex s; error := error s; result := result s;
      busy := busy s; streamRef := streamRef s;
      liveStreams := liveStreams s; nextStream := nextStream s;
      objectURLs := nextURL s :: objectURLs s; nextURL := S (nextURL s);
      stepLog := stepLog s |}).

(** [videoRef.current] is set exactly while the [<video>] element is
    rendered, that is while [mode === "camera"] (JSX, line 203). *)
Definition videoRef_current : Act bool :=
  read (fun s => Mode_eqb (mode s) Camera).

(** [canvas.toBlob(resolve, type, quality)]: resolves with [null] when the
    frame cannot be encoded. *)
Definition toBlob (width height : N) (encodes : bool) (type : string)
    (quality : Q) : Act (option Blob) :=
  ret (if encodes then Some (CanvasBlob width height type quality) else None).

(** [fetch(API_URL, { method: "POST", body: formData })]. *)
Definition fetch (o : FetchOutcome) : Act Response :=
  match o with
  | NetworkError msg => throw (mkExn msg)
  | Responded res => ret res
  end.

(** [res.json()]. *)
Definition res_json (res : Response) : Act (option Resp.Data) :=
  match body res with
  | NotJson msg => throw (mkExn msg)
  | Json data => ret data
  end.

(** [data?.error]. *)
Definition data_error (data : option Resp.Data) : js string :=
  match data with
  | Some d => Resp.error d
  | None => undefined
  end.

(* ------------------------------------------------------------------ *)
(** ** Pure helpers of the page *)

(** The text [formatPct] produces: the empty string, or a rounded number
    followed by a percent sign.  The number is rounded from the exact
    product, so it can differ by one from the code's where the double
    product falls on the other side of a half; no theorem states it for
    other than the sample answers, where the two agree. *)
Inductive PctText : Type :=
| Blank
| Percent (n : number).

Definition formatPct (x : js number) : PctText :=
  match x with
  | undefined | null => Blank
  | val n => Percent (Math_round (times100 n))
  end.

Definition tipFor (ripeness : js string) : string :=
  match ripeness with
  | val r =>
      if r =? "Green" then
        "Not ready yet. Keep at room temperature. Avoid fridge for now."
      else if r =? "Turning" then
        "Almost ready. 1–2 days at room temperature."
      else if r =? "Ripe" then
        "Perfect to eat now. If you want to slow it down, refrigerate."
      else if r =? "Overripe" then
        "Best for smoothies/baking. Refrigerate to stop further ripening."
      else "Take a clear banana photo in good light."
  | _ => "Take a clear banana photo in good light."
  end.

(** [useMemo(() => !!imageBlob && !busy, [imageBlob, busy])]. *)
Definition canAnalyze (s : State) : bool :=
  match imageBlob s with Some _ => true | None => false end && negb (busy s).

(* ------------------------------------------------------------------ *)
(** ** The handlers *)

Definition openCamera (o : CameraOutcome) : Act unit :=
  setError None ;;
  setResult None ;;
  setStepIndex (-1) ;;
  try_catch
    (setMode Camera ;;
     stream <- getUserMedia o ;;
     setStreamRef (Some stream) ;;
     video <- videoRef_current ;;
     if video then play o else ret tt)
    (fun _ =>
       setMode Idle ;;
       setError (Some
         "Camera access failed. Please allow camera permission or use Gallery upload.")).

Definition stopCamera : Act unit :=
  stream <- read streamRef ;;
  match stream with
  | Some st => stopTracks st ;; setStreamRef None
  | None => ret tt
  end.

Definition closeCamera : Act unit :=
  stopCamera ;;
  setMode Idle.

(** [capturePhoto]; [v] is the video element the reference points to when
    it is set, and [encodes] tells whether the encoder yields a blob. *)
Definition capturePhoto (v : Video) (encodes : bool) : Act unit :=
  setError None ;;
  setResult None ;;
  video <- videoRef_current ;;
  if negb video then ret tt else
  let width := if (videoWidth v =? 0)%N then 1280%N else videoWidth v in
  let height := if (videoHeight v =? 0)%N then 720%N else videoHeight v in
  blob <- toBlob width height encodes "image/jpeg" (92 # 100) ;;
  match blob with
  | None => setError (Some "Could not capture image. Please try again.")
  | Some b =>
      stopCamera ;;
      url <- createObjectURL ;;
      setImageURL (Some url) ;;
      setImageBlob (Some b) ;;
      setMode Preview
  end.

Definition pickFromGallery : Act unit :=
  setError None ;;
  setResult None ;;
  setStepIndex (-1).

(** [onFileSelected]; [file] is [e.target.files?.[0]]. *)
Definition onFileSelected (file : option File) : Act unit :=
  match file with
  | None => ret tt
  | Some f =>
      url <- createObjectURL ;;
      setImageURL (Some url) ;;
      setImageBlob (Some (FileBlob f)) ;;
      setMode Preview
  end.

Definition resetAll : Act unit :=
  stopCamera ;;
  setMode Idle ;;
  setImageURL None ;;
  setImageBlob None ;;
  setResult None ;;
  setError None ;;
  setStepIndex (-1) ;;
  setBusy false.

Definition analyze (o : FetchOutcome) : Act unit :=
  blob <- read imageBlob ;;
  match blob with
  | None => ret tt
  | Some _ =>
      setBusy true ;;
      setError None ;;
      setResult None ;;
      setMode Analyzing ;;
      setStepIndex 0 ;;
      try_catch_finally
        (setStepIndex 1 ;;
         res <- fetch o ;;
         data <- res_json res ;;
         if negb (ok res) then
           throw (mkExn (js_str_or (data_error data) "Failed to analyze image."))
         else
           setStepIndex 2 ;;
           setResult data ;;
           setMode Result)
        (fun e =>
           setMode Preview ;;
           setError (Some (str_or (message e) "Something went wrong.")))
        (setBusy false)
  end.

(** [analyze] is suspended once, at [await fetch(...)].  [analyze_begin] is
    what runs before the suspension, on the click; [analyze_settle] is what
    runs when the call settles: the rest of the [try] block, [catch] and
    [finally].  Neither part of the continuation reads the state. *)
Definition analyze_begin : Act unit :=
  blob <- read imageBlob ;;
  match blob with
  | None => ret tt
  | Some _ =>
      setBusy true ;;
      setError None ;;
      setResult None ;;
      setMode Analyzing ;;
      setStepIndex 0 ;;
      setStepIndex 1
  end.

Definition analyze_settle (o : FetchOutcome) : Act unit :=
  try_catch_finally
    (res <- fetch o ;;
     data <- res_json res ;;
     if negb (ok res) then
       throw (mkExn (js_str_or (data_error data) "Failed to analyze image."))
     else
       setStepIndex 2 ;;
       setResult data ;;
       setMode Result)
    (fun e =>
       setMode Preview ;;
       setError (Some (str_or (message e) "Something went wrong.")))
    (setBusy false).

(* ------------------------------------------------------------------ *)
(** ** What the page renders *)

(** The result card shown for a banana (JSX, lines 325-369). *)
Record BananaCard : Type := mkBananaCard {
  label : js string;
  confidenceText : PctText;
  barWidth : number;
  tip : string;
  bananaConfidenceText : PctText;
  tooDarkPill : bool;
  tooBlurryPill : bool
}.

(** The result panel (JSX, lines 301-372). *)
Inductive ResultPanel : Type :=
| NoPanel
| NoBananaDetected (bananaConfidence : PctText) (tooDark tooBlurry : bool)
| BananaDetected (card : BananaCard).

(** The [width] of the bar, a percentage:
    [Math.min(100, Math.max(0, (result.confidence || 0) * 100))]. *)
Definition bar_width (r : Resp.Data) : number :=
  Math_min100 (Math_max0 (times100 (js_num_or0 (Resp.confidence r)))).

Definition renderResult (s : State) : ResultPanel :=
  match mode s, result s with
  | Result, Some r =>
      if negb (truthy_bool (Resp.is_banana r)) then
        NoBananaDetected (formatPct (Resp.banana_confidence r))
          (Resp.warns_too_dark r) (Resp.warns_too_blurry r)
      else
        BananaDetected
          {| label := Resp.ripeness r;
             confidenceText := formatPct (Resp.confidence r);
             barWidth := bar_width r;
             tip := tipFor (Resp.ripeness r);
             bananaConfidenceText := formatPct (Resp.banana_confidence r);
             tooDarkPill := Resp.warns_too_dark r;
             tooBlurryPill := Resp.warns_too_blurry r |}
  | _, _ => NoPanel
  end.

(** One entry of the progress list (JSX, lines 268-285): its label, whether
    it is the active stage ([idx === stepIndex]) and whether it is done
    ([idx < stepIndex]). *)
Record StepView : Type := mkStepView {
  stepLabel : string;
  active : bool;
  done : bool
}.

Definition renderSteps (s : State) : list StepView :=
  map (fun '(idx, label) =>
         {| stepLabel := label;
            active := (idx =? stepIndex s)%Z;
            done := (idx <? stepIndex s)%Z |})
      (combine [0; 1; 2]%Z STAGES).

(** [error && <div ...>{error}</div>]: the alert, when one is shown. *)
Definition renderError (s : State) : option string :=
  match error s with
  | Some e => if (e =? "")%string then None else Some e
  | None => None
  end.

(* ------------------------------------------------------------------ *)
(** ** Operations as the page offers them

    The capture card (JSX, lines 203-241) renders "Back" and "Capture" only
    while [mode === "camera"], and "Use Camera" and "Upload from Gallery"
    (with the hidden file input) only otherwise.  In the analyze bar (lines
    287-299) "Reset" is always there and "Analyze" is [disabled] unless
    [canAnalyze].  A click that the page does not offer reaches no handler.
    Picking from the gallery is [pickFromGallery], which opens the file
    dialog, followed by [onFileSelected] with the file chosen, if any. *)
Inductive Op : Type :=
| UseCamera (o : CameraOutcome)
| Back
| Capture (v : Video) (encodes : bool)
| Gallery (file : option File)
| Reset
| Analyze (o : FetchOutcome).

Definition step (s : State) (op : Op) : State :=
  match op with
  | UseCamera o =>
      if Mode_eqb (mode s) Camera then s else exec (openCamera o) s
  | Back =>
      if Mode_eqb (mode s) Camera then exec closeCamera s else s
  | Capture v encodes =>
      if Mode_eqb (mode s) Camera then exec (capturePhoto v encodes) s else s
  | Gallery file =>
      if Mode_eqb (mode s) Camera then s
      else exec (pickFromGallery ;; onFileSelected file) s
  | Reset => exec resetAll s
  | Analyze o =>
      if canAnalyze s then exec (analyze o) s else s
  end.

Definition run (ops : list Op) (s : State) : State := fold_left step ops s.

Inductive reachable : State -> Prop :=
| reachable_init : reachable init
| reachable_step s op : reachable s -> reachable (step s op).

(* ------------------------------------------------------------------ *)
(** ** Predicates and sample data used in the statements *)

(** A state in the middle of an analysis: a file was picked and "Analyze"
    clicked, and the call has not settled yet. *)
Definition in_flight : State := Eval vm_compute in
  exec analyze_begin (exec (pickFromGallery ;; onFileSelected (Some 7)) init).

(** A banana reported with a confidence of 3.5, shown after an analysis. *)
Definition overconfident : Resp.Data :=
  {| Resp.is_banana := val true; Resp.ripeness := val "Ripe";
     Resp.confidence := val (Num (35 # 10));
     Resp.banana_confidence := val (Num (95 # 100));
     Resp.warnings := undefined; Resp.error := undefined |}.


(** Scenario B of the specification: not a banana, too dark. *)
Definition too_dark_photo : Resp.Data :=
  {| Resp.is_banana := val false; Resp.ripeness := undefined;
     Resp.confidence := undefined;
     Resp.banana_confidence := val (Num (3 # 10));
     Resp.warnings := val (Resp.mkWarnings (val true) undefined);
     Resp.error := undefined |}.

(** The outcomes on which the [try] block of [analyze] throws: [fetch]
    rejects, [res.json()] rejects, or the status is not a success one. *)
Definition throws (o : FetchOutcome) : bool :=
  match o with
  | NetworkError _ => true
  | Responded res =>
      match body res with
      | NotJson _ => true
      | Json _ => negb (ok res)
      end
  end.

(** A failure reported by the service with a message of its own. *)
Definition service_refusal : Resp.Data :=
  {| Resp.is_banana := undefined; Resp.ripeness := undefined;
     Resp.confidence := undefined; Resp.banana_confidence := undefined;
     Resp.warnings := undefined; Resp.error := val "Invalid image file." |}.

(** What holds of result and progress stage between two operations. *)
Definition stages_ok (s : State) : Prop :=
  (result s <> None -> mode s = Result) /\
  (stepIndex s = (-1)%Z \/
   (stepIndex s = 2%Z /\ mode s = Result) \/
   (stepIndex s = 1%Z /\ mode s = Preview /\ error s <> None)).

(** What holds of the streams: the one the page holds is running, and the
    running ones are older than the next to be handed out. *)
Definition streams_ok (s : State) : Prop :=
  (forall st, streamRef s = Some st -> In st (liveStreams s)) /\
  (forall st, In st (liveStreams s) -> st < nextStream s).

(** Scenario D of the specification: a ripe banana. *)
Definition ripe_banana : Resp.Data :=
  {| Resp.is_banana := val true; Resp.ripeness := val "Ripe";
     Resp.confidence := val (Num (87 # 100));
     Resp.banana_confidence := val (Num (95 # 100));
     Resp.warnings := undefined; Resp.error := undefined |}.

(** An image is picked, the camera is opened, and the image is analysed
    while the camera is open. *)
Definition analysed_with_camera_open : list Op :=
  [Gallery (Some 7); UseCamera (Granted true);
   Analyze (Responded (mkResponse true (Json (Some ripe_banana))))].

(** What holds of the image and its preview between two operations: they
    are set together, and the preview is the object URL created last. *)
Definition preview_ok (s : State) : Prop :=
  (imageBlob s = None <-> imageURL s = None) /\
  (forall u, imageURL s = Some u -> In u (objectURLs s) /\ nextURL s = S u).

(** What holds of [busy], error and result between two operations. *)
Definition settled (s : State) : Prop :=
  busy s = false /\
  mode s <> Analyzing /\
  (result s <> None -> error s = None) /\
  (mode s = Result -> error s = None).

(** The two ways in which an operation leaves a stream running outside
    [Camera]: the camera is granted but the video does not play, or an
    analysis is asked for while the camera is open. *)
Definition strands_the_camera (s : State) (op : Op) : bool :=
  match op with
  | UseCamera (Granted false) => true
  | Analyze _ => Mode_eqb (mode s) Camera
  | _ => false
  end.

(** The states reached by operations run one after the other, each to
    completion, none of which strands the camera. *)
Inductive reachable_with_camera_kept : State -> Prop :=
| kept_init : reachable_with_camera_kept init
| kept_step s op :
    reachable_with_camera_kept s ->
    strands_the_camera s op = false ->
    reachable_with_camera_kept (step s op).

(** The session is held exactly in [Camera], and it is the one stream that
    runs. *)
Definition camera_kept (s : State) : Prop :=
  (mode s = Camera /\ exists st, streamRef s = Some st /\ liveStreams s = [st])
  \/ (mode s <> Camera /\ streamRef s = None /\ liveStreams s = []).

(* ------------------------------------------------------------------ *)
(** ** Proof tactics *)

(** Run a handler on a state whose cells are known: unfold it down to its
    setters and read the cells of the state it leaves. *)
Ltac handler :=
  cbv [step exec run fold_left
       openCamera stopCamera closeCamera capturePhoto pickFromGallery
       onFileSelected resetAll analyze analyze_begin analyze_settle
       bind ret throw read try_catch try_catch_finally
       setMode setImageURL setImageBlob setStepIndex setError setResult
       setBusy setStreamRef getUserMedia play stopTracks createObjectURL
       videoRef_current toBlob fetch res_json canAnalyze
       fst snd mode imageURL imageBlob stepIndex error result busy streamRef
       liveStreams nextStream objectURLs nextURL stepLog ok body message
       videoWidth videoHeight Mode_eqb negb andb].

(** Name the cells of a state. *)
Ltac cells s :=
  let m := fresh "m" in
  let u := fresh "u" in
  let b := fresh "b" in
  let i := fresh "i" in
  let e := fresh "e" in
  let r := fresh "r" in
  let bz := fresh "bz" in
  let sr := fresh "sr" in
  let ls := fresh "ls" in
  let ns := fresh "ns" in
  let us := fresh "us" in
  let nu := fresh "nu" in
  let lg := fresh "lg" in
  destruct s as [m u b i e r bz sr ls ns us nu lg];
  cbn [mode imageURL imageBlob stepIndex error result busy streamRef
       liveStreams nextStream objectURLs nextURL stepLog] in *.

(* ------------------------------------------------------------------ *)
(** ** Basic facts about the handlers *)

Lemma Mode_eqb_eq (a b : Mode) : Mode_eqb a b = true <-> a = b.
Proof. destruct a, b; simpl; split; congruence. Qed.

Lemma canAnalyze_true (s : State) :
  canAnalyze s = true <-> (exists b, imageBlob s = Some b) /\ busy s = false.
Proof.
  unfold canAnalyze. destruct (imageBlob s) as [b|], (busy s); simpl.
  - split; [discriminate | intros [_ H]; discriminate].
  - split; [intros _; split; [exists b|]; reflexivity | reflexivity].
  - split; [discriminate | intros [_ H]; discriminate].
  - split; [discriminate | intros [[b H] _]; discriminate].
Qed.

Lemma str_or_nonempty (s d : string) : s <> "" -> str_or s d = s.
Proof.
  intros H. unfold str_or. destruct (String.eqb_spec s ""); congruence.
Qed.

Lemma str_or_not_empty (s d : string) : d <> "" -> str_or s d <> "".
Proof.
  intros H. unfold str_or. destruct (String.eqb_spec s ""); congruence.
Qed.

Lemma js_str_or_not_empty (x : js string) (d : string) :
  d <> "" -> js_str_or x d <> "".
Proof.
  intros H. destruct x; cbn; auto using str_or_not_empty.
Qed.

Lemma not_In_remove (st : Stream) (l : list Stream) :
  ~ In st (remove Nat.eq_dec st l).
Proof. apply remove_In. Qed.

Lemma In_remove_weaken (x st : Stream) (l : list Stream) :
  In st (remove Nat.eq_dec x l) -> In st l.
Proof. intros H. apply in_remove in H. tauto. Qed.

(** [analyze] handles whatever its [try] block throws: the promise it
    returns is never rejected. *)
Lemma analyze_never_rejects (o : FetchOutcome) (s : State) :
  fst (analyze o s) = Normal tt.
Proof.
  cells s. destruct b; [|reflexivity].
  destruct o as [msg | [[|] [msg | data]]]; reflexivity.
Qed.

(** The handler itself only looks at the image. *)
Lemma analyze_without_image (o : FetchOutcome) (s : State) :
  imageBlob s = None -> exec (analyze o) s = s.
Proof. cells s. intros ->. reflexivity. Qed.

(** The handler is its two halves, one after the other. *)
Lemma analyze_begin_settle (o : FetchOutcome) (s : State) :
  imageBlob s <> None ->
  exec (analyze o) s = exec (analyze_settle o) (exec analyze_begin s).
Proof.
  cells s. destruct b as [blob|]; [intros _ | congruence].
  destruct o as [msg | [[|] [msg | data]]]; vm_compute; reflexivity.
Qed.

(** While the call is in flight the page is [Analyzing] and [busy], the
    stage is 1, and "Analyze" is disabled. *)
Lemma analyze_begin_in_flight (s : State) :
  canAnalyze s = true ->
  let s' := exec analyze_begin s in
  mode s' = Analyzing /\ busy s' = true /\ stepIndex s' = 1%Z /\
  result s' = None /\ error s' = None /\ canAnalyze s' = false.
Proof.
  cells s. unfold canAnalyze. cbn [imageBlob busy].
  destruct b as [blob|], bz; try discriminate. intros _.
  handler. repeat split.
Qed.

(* ------------------------------------------------------------------ *)
(** ** The analyze guard *)

(** C1.  Whatever the state of the workflow, asking for an analysis while no
    image is held, or while [busy] is set (an analysis is in flight), changes
    nothing: mode, image, result, error, busy flag and progress stage are as
    they were.  The handler returns at once when there is no image; while
    [busy] is set the button is disabled ([disabled={!canAnalyze}]), so the
    click reaches no handler. *)
Theorem analyze_is_noop_unless_enabled (s : State) (o : FetchOutcome) :
  imageBlob s = None \/ busy s = true ->
  step s (Analyze o) = s.
Proof.
  intros [H | H]; unfold step, canAnalyze; rewrite H.
  - reflexivity.
  - rewrite andb_false_r. reflexivity.
Qed.

Lemma analyze_is_noop_unless_enabled_witness :
  (imageBlob in_flight = None \/ busy in_flight = true) /\
  step in_flight (Analyze (NetworkError "Failed to fetch")) = in_flight /\
  (imageBlob init = None \/ busy init = true) /\
  step init (Analyze (NetworkError "Failed to fetch")) = init.
Proof.
  split; [right; reflexivity|].
  split; [apply analyze_is_noop_unless_enabled; right; reflexivity|].
  split; [left; reflexivity|].
  apply analyze_is_noop_unless_enabled; left; reflexivity.
Defined.

(** The guard on [busy] is the button's, not the handler's: [analyze]
    itself tests the image only, and would start over if it were called
    while [busy] is set.  The page gives no other way to call it than the
    button. *)
Remark analyze_handler_tests_the_image_only :
  busy in_flight = true /\
  stepLog (exec (analyze (NetworkError "Failed to fetch")) in_flight)
  = (stepLog in_flight ++ [0; 1]%Z)%list.
Proof. split; reflexivity. Qed.

(* ------------------------------------------------------------------ *)
(** ** Reset *)

(** C7.  Reset, from any state (reachable or not), leaves the page in
    [Idle] with no image and no preview URL, no result, no error, [busy]
    unset, the progress stage cleared to -1 and no camera session: the
    reference is emptied and the stream it held runs no more.  (A stream
    that still runs after a reset is one that ran before and that the page
    did not hold.) *)
Theorem resetAll_clears_everything (s : State) :
  let s' := step s Reset in
  mode s' = Idle /\
  imageBlob s' = None /\
  imageURL s' = None /\
  result s' = None /\
  error s' = None /\
  busy s' = false /\
  stepIndex s' = (-1)%Z /\
  streamRef s' = None /\
  match streamRef s with
  | Some st => ~ In st (liveStreams s')
  | None => liveStreams s' = liveStreams s
  end /\
  incl (liveStreams s') (liveStreams s).
Proof.
  cells s. destruct sr as [st|]; handler; repeat split.
  - apply not_In_remove.
  - intros x. apply In_remove_weaken.
  - apply incl_refl.
Qed.

(* ------------------------------------------------------------------ *)
(** ** Capture *)

(** C6.  While the camera is open, a capture whose frame encodes draws the
    frame on a canvas of the video's own size, a missing dimension
    ([videoWidth] or [videoHeight] still 0) being replaced by 1280
    resp. 720, encodes it as ["image/jpeg"] at quality 0.92, stores the
    blob with a new preview URL, clears error and result, moves to
    [Preview] and stops the camera session in the same operation.  When the
    frame does not encode, the session is left as it is (reference and
    running streams unchanged), the mode stays [Camera], the image is
    untouched and the error is set. *)
Theorem capturePhoto_success_and_failure (s : State) (v : Video) :
  mode s = Camera ->
  let good := step s (Capture v true) in
  let bad := step s (Capture v false) in
  (exists w h,
      imageBlob good = Some (CanvasBlob w h "image/jpeg" (92 # 100)) /\
      (videoWidth v <> 0%N -> w = videoWidth v) /\
      (videoWidth v = 0%N -> w = 1280%N) /\
      (videoHeight v <> 0%N -> h = videoHeight v) /\
      (videoHeight v = 0%N -> h = 720%N)) /\
  imageURL good = Some (nextURL s) /\
  mode good = Preview /\
  error good = None /\
  result good = None /\
  streamRef good = None /\
  (forall st, streamRef s = Some st -> ~ In st (liveStreams good)) /\
  mode bad = Camera /\
  error bad = Some "Could not capture image. Please try again." /\
  streamRef bad = streamRef s /\
  liveStreams bad = liveStreams s /\
  imageBlob bad = imageBlob s /\
  imageURL bad = imageURL s.
Proof.
  cells s. intros ->. destruct v as [vw vh], sr as [st|]; handler.
  all: split;
    [ exists (if (vw =? 0)%N then 1280%N else vw),
             (if (vh =? 0)%N then 720%N else vh);
      split; [reflexivity|];
      destruct (N.eqb_spec vw 0), (N.eqb_spec vh 0); repeat split; congruence
    | repeat split; try discriminate ].
  intros st' [= <-]. apply not_In_remove.
Qed.

Lemma capturePhoto_success_and_failure_witness :
  let s := run [UseCamera (Granted true)] init in
  mode s = Camera /\
  imageBlob (step s (Capture (mkVideo 0 0) true))
    = Some (CanvasBlob 1280 720 "image/jpeg" (92 # 100)) /\
  imageBlob (step s (Capture (mkVideo 640 480) true))
    = Some (CanvasBlob 640 480 "image/jpeg" (92 # 100)) /\
  streamRef (step s (Capture (mkVideo 640 480) true)) = None /\
  liveStreams (step s (Capture (mkVideo 640 480) true)) = [] /\
  streamRef (step s (Capture (mkVideo 640 480) false)) = Some 0%nat /\
  mode (step s (Capture (mkVideo 640 480) false)) = Camera.
Proof.
  pose proof (capturePhoto_success_and_failure
                (run [UseCamera (Granted true)] init) (mkVideo 640 480)
                eq_refl) as H.
  cbv zeta in H. destruct H as (_ & _ & _ & _ & _ & Href & _ & Hmode & _).
  repeat split; solve [reflexivity | exact Href | exact Hmode].
Defined.

(* ------------------------------------------------------------------ *)
(** ** The confidence bar *)






(** The bar at the ends of the range and inside it. *)
Example bar_width_missing :
  bar_width (Resp.mkData (val true) undefined undefined undefined undefined
               undefined) = Num 0.
Proof. reflexivity. Qed.

Example bar_width_null :
  bar_width (Resp.mkData (val true) undefined null undefined undefined
               undefined) = Num 0.
Proof. reflexivity. Qed.

Example bar_width_above_one : bar_width overconfident = Num 100.
Proof. reflexivity. Qed.

Example bar_width_negative :
  bar_width (Resp.mkData (val true) undefined (val (Num (- (1 # 2)))) undefined
               undefined undefined) = Num 0.
Proof. reflexivity. Qed.

(** Scenario D of the specification: a confidence of 0.87 reads 87%. *)
Example formatPct_scenario_D :
  formatPct (val (Num (87 # 100))) = Percent (Num 87).
Proof. reflexivity. Qed.

Example bar_width_inside :
  bar_width (Resp.mkData (val true) (val "Ripe") (val (Num (87 # 100)))
               (val (Num (95 # 100))) undefined undefined) = Num (8700 # 100).
Proof. reflexivity. Qed.

(* ------------------------------------------------------------------ *)
(** ** The outcomes of an analysis *)

(** A successful analysis writes the stages 0, 1, 2 in this order and ends
    in [Result] with the parsed body as the result. *)
Lemma analyze_success (s : State) (data : option Resp.Data) :
  canAnalyze s = true ->
  let s' := step s (Analyze (Responded (mkResponse true (Json data)))) in
  stepLog s' = (stepLog s ++ [0; 1; 2]%Z)%list /\
  stepIndex s' = 2%Z /\
  mode s' = Result /\
  result s' = data /\
  error s' = None /\
  busy s' = false.
Proof.
  cells s. unfold step, canAnalyze. cbn [imageBlob busy].
  destruct b as [blob|], bz; try discriminate. intros _.
  handler. rewrite <- !app_assoc. repeat split.
Qed.

(** C8.  When the service answers with a success status and a body that
    does not report a banana, the workflow ends in [Result] holding that
    body, no error is set and no alert is shown, and the panel is the
    "No banana detected" one, with the banana confidence and with the
    "Too dark" and "Too blurry" marks exactly when the body's warnings
    carry them. *)
Theorem not_a_banana_is_a_result (s : State) (d : Resp.Data) :
  canAnalyze s = true ->
  truthy_bool (Resp.is_banana d) = false ->
  let s' := step s (Analyze (Responded (mkResponse true (Json (Some d))))) in
  mode s' = Result /\
  result s' = Some d /\
  error s' = None /\
  renderError s' = None /\
  exists dark blurry,
    renderResult s'
      = NoBananaDetected (formatPct (Resp.banana_confidence d)) dark blurry /\
    (dark = true <->
       exists w, Resp.warnings d = val w /\ Resp.too_dark w = val true) /\
    (blurry = true <->
       exists w, Resp.warnings d = val w /\ Resp.too_blurry w = val true).
Proof.
  intros Hcan Hnot.
  destruct (analyze_success s (Some d) Hcan) as (_ & _ & Hm & Hr & He & _).
  cbv zeta. split; [exact Hm|]. split; [exact Hr|]. split; [exact He|].
  split; [unfold renderError; rewrite He; reflexivity|].
  exists (Resp.warns_too_dark d), (Resp.warns_too_blurry d).
  split.
  - unfold renderResult. rewrite Hm, Hr, Hnot. reflexivity.
  - unfold Resp.warns_too_dark, Resp.warns_too_blurry.
    destruct (Resp.warnings d) as [ | | [[ | | [|]] [ | | [|]]]]; cbn;
      split; split;
      try discriminate;
      try (intros (w & [=] & _); fail);
      try (intros (w & [= <-] & [=]); fail);
      try (intros _; eexists; split; reflexivity).
Qed.

Lemma not_a_banana_is_a_result_witness :
  let s := run [Gallery (Some 7%nat)] init in
  let s' :=
    step s (Analyze (Responded (mkResponse true (Json (Some too_dark_photo))))) in
  canAnalyze s = true /\
  truthy_bool (Resp.is_banana too_dark_photo) = false /\
  mode s' = Result /\
  error s' = None /\
  renderResult s' = NoBananaDetected (Percent (Num 30)) true false.
Proof.
  pose proof (not_a_banana_is_a_result (run [Gallery (Some 7%nat)] init)
                too_dark_photo eq_refl eq_refl) as H.
  cbv zeta in H. destruct H as (Hm & _ & He & _).
  repeat split; solve [exact Hm | exact He | reflexivity].
Defined.

(** What a failed analysis leaves behind, in terms of the message of the
    exception caught. *)
Lemma analyze_failure (s : State) (o : FetchOutcome) :
  canAnalyze s = true ->
  throws o = true ->
  let s' := step s (Analyze o) in
  let thrown :=
    match o with
    | NetworkError msg => msg
    | Responded res =>
        match body res with
        | NotJson msg => msg
        | Json data => js_str_or (data_error data) "Failed to analyze image."
        end
    end in
  mode s' = Preview /\
  result s' = None /\
  busy s' = false /\
  error s' = Some (str_or thrown "Something went wrong.") /\
  stepIndex s' = 1%Z /\
  stepLog s' = (stepLog s ++ [0; 1]%Z)%list.
Proof.
  cells s. unfold step, canAnalyze. cbn [imageBlob busy].
  destruct b as [blob|], bz; try discriminate. intros _.
  destruct o as [msg | [[|] [msg | data]]]; cbn [throws body ok negb];
    try discriminate; intros _; handler; rewrite <- !app_assoc; repeat split.
Qed.

(** C5, as the code has it.  Whenever the analysis fails, the promise is not
    rejected, and the workflow is back in [Preview] with no result, [busy]
    unset and a non-empty error.  The error is: the [error] string of the
    body when the status is a failure one and the body is JSON carrying a
    non-empty one; ["Failed to analyze image."] when such a body carries
    none; the message of the transport error when [fetch] rejects; and the
    message of the parse error when the body is not JSON, whatever the
    status.  An exception without message gives ["Something went wrong."]. *)
Theorem analyze_failure_is_reported_in_preview (s : State) :
  canAnalyze s = true ->
  (forall o, throws o = true ->
     let s' := step s (Analyze o) in
     fst (analyze o s) = Normal tt /\
     mode s' = Preview /\ result s' = None /\ busy s' = false /\
     exists m, error s' = Some m /\ m <> "") /\
  (forall d m, Resp.error d = val m -> m <> "" ->
     error (step s (Analyze (Responded (mkResponse false (Json (Some d))))))
     = Some m) /\
  (forall data,
     data_error data = undefined \/ data_error data = null \/
     data_error data = val "" ->
     error (step s (Analyze (Responded (mkResponse false (Json data)))))
     = Some "Failed to analyze image.") /\
  (forall msg, msg <> "" ->
     error (step s (Analyze (NetworkError msg))) = Some msg) /\
  (forall status msg, msg <> "" ->
     error (step s (Analyze (Responded (mkResponse status (NotJson msg)))))
     = Some msg) /\
  (forall status,
     error (step s (Analyze (NetworkError ""))) = Some "Something went wrong." /\
     error (step s (Analyze (Responded (mkResponse status (NotJson "")))))
     = Some "Something went wrong.").
Proof.
  intros Hcan. repeat apply conj.
  - intros o Ho. cbv zeta.
    destruct (analyze_failure s o Hcan Ho) as (Hm & Hr & Hb & He & _).
    split; [apply analyze_never_rejects|].
    split; [exact Hm|]. split; [exact Hr|]. split; [exact Hb|].
    eexists. split; [exact He|]. apply str_or_not_empty. discriminate.
  - intros d m Hd Hne.
    destruct (analyze_failure s (Responded (mkResponse false (Json (Some d))))
                Hcan eq_refl) as (_ & _ & _ & He & _).
    rewrite He. cbn [body data_error]. rewrite Hd. cbn [js_str_or].
    rewrite (str_or_nonempty m _ Hne). apply f_equal, str_or_nonempty, Hne.
  - intros data Hd.
    destruct (analyze_failure s (Responded (mkResponse false (Json data)))
                Hcan eq_refl) as (_ & _ & _ & He & _).
    rewrite He. cbn [body]. destruct Hd as [-> | [-> | ->]]; reflexivity.
  - intros msg Hne.
    destruct (analyze_failure s (NetworkError msg) Hcan eq_refl)
      as (_ & _ & _ & He & _).
    rewrite He. rewrite str_or_nonempty; auto.
  - intros status msg Hne.
    destruct (analyze_failure s (Responded (mkResponse status (NotJson msg)))
                Hcan eq_refl) as (_ & _ & _ & He & _).
    rewrite He. cbn [body]. rewrite str_or_nonempty; auto.
  - intros status. split.
    + destruct (analyze_failure s (NetworkError "") Hcan eq_refl)
        as (_ & _ & _ & He & _). exact He.
    + destruct (analyze_failure s
                  (Responded (mkResponse status (NotJson ""))) Hcan eq_refl)
        as (_ & _ & _ & He & _). exact He.
Qed.

Lemma analyze_failure_is_reported_in_preview_witness :
  let s := run [Gallery (Some 7%nat)] init in
  canAnalyze s = true /\
  error (step s (Analyze (Responded
                             (mkResponse false (Json (Some service_refusal))))))
  = Some "Invalid image file." /\
  error (step s (Analyze (Responded (mkResponse false (Json None)))))
  = Some "Failed to analyze image." /\
  error (step s (Analyze (NetworkError "Failed to fetch")))
  = Some "Failed to fetch".
Proof.
  pose proof (analyze_failure_is_reported_in_preview
                (run [Gallery (Some 7%nat)] init) eq_refl) as H.
  destruct H as (_ & Hservice & Hgeneric & Hnet & _).
  cbv zeta. split; [reflexivity|]. split; [|split].
  - apply Hservice; [reflexivity | discriminate].
  - apply Hgeneric. left. reflexivity.
  - apply Hnet. discriminate.
Defined.

(** C5, as stated, fails: a response with a failure status whose body is not
    JSON (a gateway's HTML error page) carries no message of the service,
    yet the error shown is not the generic ["Failed to analyze image."]: it
    is the message of the parse error. *)
Lemma failure_status_with_unparsable_body :
  let s := run [Gallery (Some 7%nat)] init in
  let res := mkResponse false (NotJson "Unexpected token < in JSON at position 0") in
  canAnalyze s = true /\
  ok res = false /\
  mode (step s (Analyze (Responded res))) = Preview /\
  error (step s (Analyze (Responded res)))
  = Some "Unexpected token < in JSON at position 0" /\
  error (step s (Analyze (Responded res))) <> Some "Failed to analyze image.".
Proof. vm_compute. repeat split. intros H. discriminate H. Qed.

(* ------------------------------------------------------------------ *)
(** ** The progress stage *)

(** C2, on the code.  An analysis that succeeds writes the stages 0, 1, 2 in
    this order and ends on 2.  An analysis that fails writes 0 and 1 and
    then leaves the stage at 1 in [Preview]: the [catch] block does not
    clear it. *)
Theorem analyze_stage_sequence (s : State) (o : FetchOutcome) :
  canAnalyze s = true ->
  let s' := step s (Analyze o) in
  (throws o = false ->
     stepLog s' = (stepLog s ++ [0; 1; 2]%Z)%list /\ stepIndex s' = 2%Z /\
     mode s' = Result) /\
  (throws o = true ->
     stepLog s' = (stepLog s ++ [0; 1]%Z)%list /\ stepIndex s' = 1%Z /\
     mode s' = Preview).
Proof.
  intros Hcan. cbv zeta. split; intros Ho.
  - destruct o as [msg | [[|] [msg | data]]]; try discriminate.
    destruct (analyze_success s data Hcan) as (Hl & Hi & Hm & _). auto.
  - destruct (analyze_failure s o Hcan Ho) as (Hm & _ & _ & _ & Hi & Hl). auto.
Qed.

Lemma analyze_stage_sequence_witness :
  let s := run [Gallery (Some 7%nat)] init in
  let failed := step s (Analyze (NetworkError "Failed to fetch")) in
  canAnalyze s = true /\
  throws (NetworkError "Failed to fetch") = true /\
  stepLog failed = [-1; 0; 1]%Z /\
  stepIndex failed = 1%Z /\
  mode failed = Preview.
Proof.
  pose proof (analyze_stage_sequence (run [Gallery (Some 7%nat)] init)
                (NetworkError "Failed to fetch") eq_refl) as H.
  cbv zeta in H. destruct H as [_ H]. specialize (H eq_refl).
  cbv zeta. split; [reflexivity|]. split; [reflexivity|]. exact H.
Defined.

(** What the progress list shows after a failed analysis: the first stage
    done, the second one active. *)
Example steps_after_a_failed_analysis :
  renderSteps
    (run [Gallery (Some 7%nat); Analyze (NetworkError "Failed to fetch")] init)
  = [ {| stepLabel := "Image Selected"; active := false; done := true |};
      {| stepLabel := "Banana Check"; active := true; done := false |};
      {| stepLabel := "Ripeness Result"; active := false; done := false |} ].
Proof. reflexivity. Qed.

(** After a file is picked, and after a reset, no stage is active or done. *)
Example steps_after_a_file_is_picked :
  renderSteps (run [Gallery (Some 7%nat)] init)
  = [ {| stepLabel := "Image Selected"; active := false; done := false |};
      {| stepLabel := "Banana Check"; active := false; done := false |};
      {| stepLabel := "Ripeness Result"; active := false; done := false |} ].
Proof. reflexivity. Qed.

(* ------------------------------------------------------------------ *)
(** ** Reachable states *)

Lemma run_reachable (ops : list Op) (s : State) :
  reachable s -> reachable (run ops s).
Proof.
  revert s. induction ops as [|op ops IH]; intros s Hs; cbn.
  - exact Hs.
  - apply IH. constructor. exact Hs.
Qed.

Lemma step_stages_ok (s : State) (op : Op) :
  stages_ok s -> stages_ok (step s op).
Proof.
  unfold stages_ok. cells s. intros [Hres Hstage].
  destruct op as [o | | v enc | file | | o].
  - destruct m, o as [|[|]]; handler; try (split; assumption);
      (split; [congruence | left; reflexivity]).
  - destruct m, sr; handler; try (split; assumption); intuition congruence.
  - destruct m, enc, sr; handler; try (split; assumption);
      intuition congruence.
  - destruct m, file; handler; try (split; assumption);
      (split; [congruence | left; reflexivity]).
  - destruct sr; handler; (split; [congruence | left; reflexivity]).
  - destruct b, bz; handler; try (split; assumption).
    destruct o as [msg | [[|] [msg | data]]]; handler;
      (split; [intros H; try reflexivity; congruence|]);
      first [ right; left; split; reflexivity
            | right; right; repeat split; discriminate ].
Qed.

Lemma step_streams_ok (s : State) (op : Op) :
  streams_ok s -> streams_ok (step s op).
Proof.
  unfold streams_ok. cells s. intros [Hheld Hfresh].
  assert (forall x st, In st (remove Nat.eq_dec x ls) -> st < ns) as Hrem
    by (intros x st H; apply In_remove_weaken in H; auto).
  assert (forall st, In st (ns :: ls) -> st < S ns) as Hcons
    by (intros st [<- | H]; [lia | apply Hfresh in H; lia]).
  destruct op as [o | | v enc | file | | o].
  - destruct m, o as [|[|]]; handler;
      first [ split; assumption
            | split; [intros st [= <-]; left; reflexivity | exact Hcons] ].
  - destruct m, sr; handler; try (split; assumption);
      (split; [discriminate | eauto]).
  - destruct m, enc, sr; handler; try (split; assumption);
      (split; [discriminate | eauto]).
  - destruct m, file; handler; split; assumption.
  - destruct sr; handler; split; solve [discriminate | eauto].
  - destruct b, bz; handler; try (split; assumption).
    destruct o as [msg | [[|] [msg | data]]]; handler; split; assumption.
Qed.

Lemma reachable_stages_ok (s : State) : reachable s -> stages_ok s.
Proof.
  induction 1 as [|s op _ IH].
  - split; [intros H; exfalso; apply H; reflexivity | left; reflexivity].
  - apply step_stages_ok, IH.
Qed.

Lemma reachable_streams_ok (s : State) : reachable s -> streams_ok s.
Proof.
  induction 1 as [|s op _ IH].
  - split; [discriminate | intros st []].
  - apply step_streams_ok, IH.
Qed.

(** C3, on the code.  An analysis never ends in [Camera] and never touches
    the camera: asked for while the camera is open (the button is enabled
    whenever an image is held), it takes the page to [Result] or [Preview]
    with the session still held and its stream still running, where
    [closeCamera], [capturePhoto] and [resetAll] call [stopCamera] before
    they leave [Camera].  An analysis that fails leaves the page in
    [Preview] on stage 1.  And an answer that arrives after the user has
    opened the file dialog is applied all the same, so that the file then
    chosen is shown in [Preview] beside that answer's result, on stage 2. *)
Theorem analyze_leaves_session_and_stage_behind (s : State) (o : FetchOutcome) :
  canAnalyze s = true ->
  let s' := step s (Analyze o) in
  mode s' <> Camera /\
  streamRef s' = streamRef s /\
  liveStreams s' = liveStreams s /\
  (throws o = true -> mode s' = Preview /\ stepIndex s' = 1%Z) /\
  (forall (f : File) (data : option Resp.Data),
     let late := Responded (mkResponse true (Json data)) in
     let t :=
       exec (onFileSelected (Some f))
         (exec (analyze_settle late)
            (exec pickFromGallery (exec analyze_begin s))) in
     mode t = Preview /\ result t = data /\ stepIndex t = 2%Z).
Proof.
  cells s. unfold step, canAnalyze. cbn [imageBlob busy].
  destruct b as [blob|], bz; try discriminate. intros _.
  split; [|split; [|split; [|split]]].
  - destruct o as [msg | [[|] [msg | data]]]; handler; discriminate.
  - destruct o as [msg | [[|] [msg | data]]]; handler; reflexivity.
  - destruct o as [msg | [[|] [msg | data]]]; handler; reflexivity.
  - destruct o as [msg | [[|] [msg | data]]]; cbn [throws body ok negb];
      try discriminate; intros _; handler; split; reflexivity.
  - intros f data. handler. repeat split.
Qed.

Lemma analyze_leaves_session_and_stage_behind_witness :
  let s := run [Gallery (Some 7); UseCamera (Granted true)] init in
  let s' :=
    step s (Analyze (Responded (mkResponse true (Json (Some ripe_banana))))) in
  canAnalyze s = true /\
  mode s = Camera /\ streamRef s = Some 0 /\ liveStreams s = [0] /\
  mode s' = Result /\
  mode s' <> Camera /\
  streamRef s' = streamRef s /\
  liveStreams s' = liveStreams s.
Proof.
  pose proof (analyze_leaves_session_and_stage_behind
                (run [Gallery (Some 7); UseCamera (Granted true)] init)
                (Responded (mkResponse true (Json (Some ripe_banana))))
                eq_refl) as H.
  cbv zeta in H. destruct H as (Hm & Hr & Hl & _).
  cbv zeta. split; [reflexivity|]. split; [reflexivity|].
  split; [reflexivity|]. split; [reflexivity|]. split; [reflexivity|].
  split; [exact Hm|]. split; [exact Hr | exact Hl].
Defined.

(** The facts about reachable states in this file are about operations that
    run one after the other.  A call that settles after the user has moved
    on is applied all the same, because the continuation of [analyze] does
    not look at the state: a response that arrives after a reset puts the
    page in [Result] with no image, and one that arrives while the file
    dialog is open leaves its result and stage behind in [Preview]. *)
Remark response_after_reset_is_applied :
  let late := Responded (mkResponse true (Json (Some ripe_banana))) in
  let s := exec (analyze_settle late) (step in_flight Reset) in
  mode s = Result /\ result s = Some ripe_banana /\ imageBlob s = None.
Proof. vm_compute. repeat split. Qed.

Remark response_while_picking_a_file :
  let late := Responded (mkResponse true (Json (Some ripe_banana))) in
  let s :=
    exec (onFileSelected (Some 8))
      (exec (analyze_settle late) (exec pickFromGallery in_flight)) in
  mode s = Preview /\ result s = Some ripe_banana /\ stepIndex s = 2%Z.
Proof. vm_compute. repeat split. Qed.

(* ------------------------------------------------------------------ *)
(** ** Camera sessions *)

(** C9, as stated, fails: with a session still held outside [Camera] (here
    after an analysis run while the camera was open), "Use Camera" is
    offered again, and [openCamera] asks for a stream without looking at
    the one it holds: a second stream runs next to the first, which is
    neither reused nor stopped, and the request is not rejected.  The first
    stream is then out of reach: closing the camera or resetting stops the
    second one only. *)
Lemma second_open_creates_second_live_session :
  let s := run analysed_with_camera_open init in
  let s' := step s (UseCamera (Granted true)) in
  streamRef s = Some 0 /\ liveStreams s = [0] /\
  mode s' = Camera /\ error s' = None /\
  streamRef s' = Some 1 /\ liveStreams s' = [1; 0] /\
  List.length (liveStreams s') = 2 /\
  liveStreams (step s' Back) = [0] /\
  liveStreams (step s' Reset) = [0].
Proof. vm_compute. repeat split. Qed.

(** C9, as the code has it.  The page keeps one reference to a session.  In
    [Camera] the page does not offer "Use Camera", and a request changes
    nothing.  In every other mode a granted request acquires a stream that
    did not run before and makes it the session held; all the streams that
    ran still run, the one held before among them, which is no longer
    referenced.  A denied request leaves reference and streams as they
    were. *)
Theorem openCamera_always_acquires (s : State) :
  reachable s ->
  (forall o, mode s = Camera -> step s (UseCamera o) = s) /\
  (forall plays, mode s <> Camera ->
     let s' := step s (UseCamera (Granted plays)) in
     streamRef s' = Some (nextStream s) /\
     liveStreams s' = nextStream s :: liveStreams s /\
     ~ In (nextStream s) (liveStreams s) /\
     (forall st, streamRef s = Some st ->
        In st (liveStreams s') /\ streamRef s' <> Some st)) /\
  (mode s <> Camera ->
     let s' := step s (UseCamera Denied) in
     streamRef s' = streamRef s /\ liveStreams s' = liveStreams s).
Proof.
  intros Hs. destruct (reachable_streams_ok s Hs) as [Hheld Hfresh].
  assert (~ In (nextStream s) (liveStreams s)) as Hnew
    by (intros H; apply Hfresh in H; lia).
  split; [|split].
  - intros o Hcam. unfold step. rewrite Hcam. reflexivity.
  - intros plays Hmode. cbv zeta.
    assert (streamRef (step s (UseCamera (Granted plays)))
            = Some (nextStream s) /\
            liveStreams (step s (UseCamera (Granted plays)))
            = nextStream s :: liveStreams s) as [Href Hlive].
    { clear Hheld Hfresh Hnew Hs. cells s.
      destruct m, plays; try congruence; handler; split; reflexivity. }
    rewrite Href, Hlive. repeat split; try assumption.
    + right. apply Hheld. assumption.
    + intros [= Heq]. apply Hnew. rewrite Heq. apply Hheld. assumption.
  - intros Hmode. cbv zeta. clear Hheld Hfresh Hnew Hs. cells s.
    destruct m; try congruence; handler; split; reflexivity.
Qed.

Lemma openCamera_always_acquires_witness :
  let s := run analysed_with_camera_open init in
  let s' := step s (UseCamera (Granted true)) in
  reachable s /\ mode s <> Camera /\
  streamRef s' = Some (nextStream s) /\
  liveStreams s' = nextStream s :: liveStreams s /\
  ~ In (nextStream s) (liveStreams s) /\
  (forall st, streamRef s = Some st ->
     In st (liveStreams s') /\ streamRef s' <> Some st).
Proof.
  assert (mode (run analysed_with_camera_open init) <> Camera) as Hmode
    by (vm_compute; intros H; discriminate H).
  pose proof (openCamera_always_acquires
                (run analysed_with_camera_open init)
                (run_reachable _ _ reachable_init)) as [_ [H _]].
  cbv zeta. split; [apply run_reachable, reachable_init|].
  split; [exact Hmode|].
  exact (H true Hmode).
Defined.

(* ------------------------------------------------------------------ *)
(** ** Preview URLs *)

(** C4, as stated, fails: the page never calls [URL.revokeObjectURL].
    After a second file is picked the URL of the first is still live, so two
    are; and both still are after a reset, which only forgets the one it
    shows. *)
Lemma superseded_preview_url_stays_live :
  let twice := run [Gallery (Some 7); Gallery (Some 8)] init in
  let after_reset := step twice Reset in
  imageURL twice = Some 1 /\ objectURLs twice = [1; 0] /\
  List.length (objectURLs twice) = 2 /\
  imageURL after_reset = None /\ objectURLs after_reset = [1; 0].
Proof. vm_compute. repeat split. Qed.

Lemma gallery_cycles (n : nat) (s : State) :
  mode s <> Camera ->
  List.length (objectURLs (run (repeat (Gallery (Some 7)) n) s))
  = n + List.length (objectURLs s).
Proof.
  revert s. induction n as [|n IH]; intros s Hmode; [reflexivity|].
  cbn [repeat run fold_left]. fold (run (repeat (Gallery (Some 7)) n)).
  rewrite IH.
  - cells s. destruct m; try congruence; handler; cbn [List.length]; lia.
  - cells s. destruct m; try congruence; handler; discriminate.
Qed.

(** C4, as the code has it.  No operation releases a preview URL: every URL
    that is live before an operation is live after it.  Picking a file, and
    capturing a frame that encodes, create one new URL, which becomes the
    one shown, and keep all the earlier ones; reset keeps them all.  So the
    number of live URLs grows with the number of images: after [n] files
    picked in a row, [n] URLs are live. *)
Theorem preview_urls_are_never_released :
  (forall s op u, In u (objectURLs s) -> In u (objectURLs (step s op))) /\
  (forall s f, mode s <> Camera ->
     let s' := step s (Gallery (Some f)) in
     imageURL s' = Some (nextURL s) /\
     objectURLs s' = nextURL s :: objectURLs s) /\
  (forall s v, mode s = Camera ->
     let s' := step s (Capture v true) in
     imageURL s' = Some (nextURL s) /\
     objectURLs s' = nextURL s :: objectURLs s) /\
  (forall s, objectURLs (step s Reset) = objectURLs s) /\
  (forall n, List.length (objectURLs (run (repeat (Gallery (Some 7)) n) init)) = n).
Proof.
  repeat apply conj.
  - intros s op u. cells s.
    destruct op as [o | | v enc | file | | o].
    + destruct m, o as [|[|]]; handler; auto.
    + destruct m, sr; handler; auto.
    + destruct m, enc, sr; handler; auto; intros H; right; exact H.
    + destruct m, file; handler; auto; intros H; right; exact H.
    + destruct sr; handler; auto.
    + destruct b, bz; handler; auto.
      destruct o as [msg | [[|] [msg | data]]]; handler; auto.
  - intros s f Hmode. cells s.
    destruct m; try congruence; handler; split; reflexivity.
  - intros s v Hmode. cells s. subst m.
    destruct sr; handler; split; reflexivity.
  - intros s. cells s. destruct sr; reflexivity.
  - intros n. rewrite gallery_cycles; [cbn; lia | discriminate].
Qed.

Lemma preview_urls_are_never_released_witness :
  let s := run [Gallery (Some 7)] init in
  let s' := step s (Gallery (Some 8)) in
  In 0 (objectURLs s) /\ mode s <> Camera /\
  In 0 (objectURLs s') /\
  imageURL s' = Some (nextURL s) /\
  objectURLs s' = nextURL s :: objectURLs s.
Proof.
  assert (mode (run [Gallery (Some 7)] init) <> Camera) as Hmode
    by (vm_compute; intros H; discriminate H).
  assert (In 0 (objectURLs (run [Gallery (Some 7)] init))) as Hin
    by (left; reflexivity).
  destruct preview_urls_are_never_released as (Hkeep & Hpick & _).
  cbv zeta. split; [exact Hin|]. split; [exact Hmode|].
  split; [apply Hkeep, Hin|].
  exact (Hpick (run [Gallery (Some 7)] init) 8 Hmode).
Defined.

(* ------------------------------------------------------------------ *)
(** ** Further properties of the handlers *)

(** *** Camera *)

(** X1.  [stopCamera] is idempotent, it leaves no session held, and it
    changes nothing when no session is held. *)
Theorem stopCamera_idempotent (s : State) :
  exec stopCamera (exec stopCamera s) = exec stopCamera s /\
  streamRef (exec stopCamera s) = None /\
  (streamRef s = None -> exec stopCamera s = s).
Proof.
  cells s. destruct sr as [st|]; handler; repeat split. discriminate.
Qed.

(** X2.  "Back", in [Camera], stops the session held and goes to [Idle],
    and touches nothing else: the image and its preview, the result, the
    stage, [busy] and, in particular, an error on display all stay. *)
Theorem closeCamera_only_stops_the_camera (s : State) :
  mode s = Camera ->
  let s' := step s Back in
  mode s' = Idle /\
  streamRef s' = None /\
  (forall st, streamRef s = Some st -> ~ In st (liveStreams s')) /\
  incl (liveStreams s') (liveStreams s) /\
  error s' = error s /\
  imageBlob s' = imageBlob s /\
  imageURL s' = imageURL s /\
  result s' = result s /\
  stepIndex s' = stepIndex s /\
  busy s' = busy s /\
  objectURLs s' = objectURLs s.
Proof.
  cells s. intros ->. destruct sr as [st|]; handler; repeat split;
    try discriminate; try apply incl_refl.
  - intros st' [= <-]. apply not_In_remove.
  - intros x. apply In_remove_weaken.
Qed.

Lemma closeCamera_only_stops_the_camera_witness :
  let s := run [UseCamera (Granted true); Capture (mkVideo 640 480) false] init in
  let s' := step s Back in
  mode s = Camera /\
  mode s' = Idle /\
  streamRef s' = None /\
  error s' = error s /\
  error s = Some "Could not capture image. Please try again.".
Proof.
  pose proof (closeCamera_only_stops_the_camera
                (run [UseCamera (Granted true);
                      Capture (mkVideo 640 480) false] init) eq_refl) as H.
  cbv zeta in H. destruct H as (Hm & Hr & _ & _ & He & _).
  cbv zeta. split; [reflexivity|]. split; [exact Hm|]. split; [exact Hr|].
  split; [exact He|]. reflexivity.
Defined.

(** X3.  [openCamera] never rejects: a refused permission and a failing
    [play()] both end in its [catch] block. *)
Theorem openCamera_never_rejects (o : CameraOutcome) (s : State) :
  fst (openCamera o s) = Normal tt.
Proof. cells s. destruct o as [|[|]]; reflexivity. Qed.

(** X4.  When the camera is refused, the page is back in [Idle] with the
    camera message, no result and no stage; no stream is created, the
    session reference is as it was, and the image is kept. *)
Theorem openCamera_denied (s : State) :
  mode s <> Camera ->
  let s' := step s (UseCamera Denied) in
  mode s' = Idle /\
  error s' = Some
    "Camera access failed. Please allow camera permission or use Gallery upload." /\
  result s' = None /\
  stepIndex s' = (-1)%Z /\
  streamRef s' = streamRef s /\
  liveStreams s' = liveStreams s /\
  nextStream s' = nextStream s /\
  imageBlob s' = imageBlob s /\
  imageURL s' = imageURL s /\
  busy s' = busy s.
Proof.
  cells s. destruct m; try congruence; intros _; handler; repeat split.
Qed.

Lemma openCamera_denied_witness :
  let s' := step init (UseCamera Denied) in
  mode init <> Camera /\
  mode s' = Idle /\
  streamRef s' = None /\
  liveStreams s' = [] /\
  renderError s' = Some
    "Camera access failed. Please allow camera permission or use Gallery upload.".
Proof.
  assert (mode init <> Camera) as Hmode by discriminate.
  pose proof (openCamera_denied init Hmode) as H.
  cbv zeta in H. destruct H as (Hm & _ & _ & _ & Hr & Hl & _).
  cbv zeta. split; [exact Hmode|]. split; [exact Hm|].
  split; [exact Hr|]. split; [exact Hl|]. reflexivity.
Defined.

(** X5.  When the camera is granted and the video plays, the page is in
    [Camera] with no error, no result and no stage; the image picked before
    and its preview are kept, so that "Analyze" stays enabled if it was. *)
Theorem openCamera_granted (s : State) :
  mode s <> Camera ->
  let s' := step s (UseCamera (Granted true)) in
  mode s' = Camera /\
  error s' = None /\
  result s' = None /\
  stepIndex s' = (-1)%Z /\
  imageBlob s' = imageBlob s /\
  imageURL s' = imageURL s /\
  busy s' = busy s /\
  canAnalyze s' = canAnalyze s.
Proof.
  cells s. destruct m; try congruence; intros _; handler; repeat split.
Qed.

Lemma openCamera_granted_witness :
  let s := run [Gallery (Some 7)] init in
  let s' := step s (UseCamera (Granted true)) in
  mode s <> Camera /\
  mode s' = Camera /\
  imageBlob s' = Some (FileBlob 7) /\
  canAnalyze s' = true.
Proof.
  assert (mode (run [Gallery (Some 7)] init) <> Camera) as Hmode
    by (vm_compute; intros H; discriminate H).
  pose proof (openCamera_granted (run [Gallery (Some 7)] init) Hmode) as H.
  cbv zeta in H. destruct H as (Hm & _ & _ & _ & Hb & _ & _ & Hc).
  cbv zeta. split; [exact Hmode|]. split; [exact Hm|].
  split; [rewrite Hb; reflexivity | rewrite Hc; reflexivity].
Defined.

(** X6.  When the camera is granted but [play()] fails, the [catch] block
    only sets the mode and the error: the page shows [Idle] with the camera
    message, while the stream just acquired is held and keeps running. *)
Theorem openCamera_play_failure_keeps_stream (s : State) :
  mode s <> Camera ->
  let s' := step s (UseCamera (Granted false)) in
  mode s' = Idle /\
  error s' = Some
    "Camera access failed. Please allow camera permission or use Gallery upload." /\
  streamRef s' = Some (nextStream s) /\
  In (nextStream s) (liveStreams s') /\
  liveStreams s' = nextStream s :: liveStreams s.
Proof.
  cells s. destruct m; try congruence; intros _; handler; repeat split;
    left; reflexivity.
Qed.

Lemma openCamera_play_failure_keeps_stream_witness :
  let s' := step init (UseCamera (Granted false)) in
  mode init <> Camera /\
  mode s' = Idle /\
  streamRef s' = Some (nextStream init) /\
  liveStreams s' = nextStream init :: liveStreams init.
Proof.
  assert (mode init <> Camera) as Hmode by discriminate.
  pose proof (openCamera_play_failure_keeps_stream init Hmode) as H.
  cbv zeta in H. destruct H as (Hm & _ & Hr & _ & Hl).
  cbv zeta. split; [exact Hmode|]. split; [exact Hm|].
  split; [exact Hr | exact Hl].
Defined.

(** X7.  [capturePhoto] reads the video element before anything else but
    its two clearing calls: when no video is mounted (the page is not in
    [Camera]) it clears error and result and returns, creating no image and
    no URL and stopping no stream, whatever the encoder would answer. *)
Theorem capturePhoto_without_video (s : State) (v : Video) (encodes : bool) :
  mode s <> Camera ->
  let s' := exec (capturePhoto v encodes) s in
  error s' = None /\
  result s' = None /\
  mode s' = mode s /\
  imageBlob s' = imageBlob s /\
  imageURL s' = imageURL s /\
  objectURLs s' = objectURLs s /\
  streamRef s' = streamRef s /\
  liveStreams s' = liveStreams s /\
  stepIndex s' = stepIndex s /\
  busy s' = busy s.
Proof.
  cells s. destruct m; try congruence; intros _; handler; repeat split.
Qed.

Lemma capturePhoto_without_video_witness :
  let s := run [UseCamera (Granted false)] init in
  let s' := exec (capturePhoto (mkVideo 640 480) true) s in
  mode s <> Camera /\
  streamRef s = Some 0 /\
  error s' = None /\
  imageBlob s' = None /\
  streamRef s' = streamRef s /\
  liveStreams s' = liveStreams s.
Proof.
  assert (mode (run [UseCamera (Granted false)] init) <> Camera) as Hmode
    by (vm_compute; intros H; discriminate H).
  pose proof (capturePhoto_without_video
                (run [UseCamera (Granted false)] init) (mkVideo 640 480) true
                Hmode) as H.
  cbv zeta in H. destruct H as (He & _ & _ & Hb & _ & _ & Hr & Hl & _).
  cbv zeta. split; [exact Hmode|]. split; [reflexivity|].
  split; [exact He|]. split; [rewrite Hb; reflexivity|].
  split; [exact Hr | exact Hl].
Defined.

Lemma remove_fresh_head (x : Stream) (l : list Stream) :
  ~ In x l -> remove Nat.eq_dec x (x :: l) = l.
Proof.
  intros H. cbn. destruct (Nat.eq_dec x x) as [_ | Hne]; [|congruence].
  apply notin_remove. exact H.
Qed.

(** X8.  A camera round trip gives back what it took: from a reachable state
    outside [Camera], opening the camera and then either closing it or
    capturing a frame leaves no session held and exactly the streams running
    that ran before. *)
Theorem camera_round_trip_releases_its_stream (s : State) (v : Video) :
  reachable s ->
  mode s <> Camera ->
  let closed := run [UseCamera (Granted true); Back] s in
  let captured := run [UseCamera (Granted true); Capture v true] s in
  streamRef closed = None /\
  liveStreams closed = liveStreams s /\
  mode closed = Idle /\
  streamRef captured = None /\
  liveStreams captured = liveStreams s /\
  mode captured = Preview.
Proof.
  intros Hs Hmode. destruct (reachable_streams_ok s Hs) as [_ Hfresh].
  assert (~ In (nextStream s) (liveStreams s)) as Hnew
    by (intros H; apply Hfresh in H; lia).
  clear Hs Hfresh. cells s. destruct v as [vw vh].
  destruct m; try congruence; handler; rewrite !(remove_fresh_head _ _ Hnew);
    repeat split.
Qed.

Lemma camera_round_trip_releases_its_stream_witness :
  let s := run analysed_with_camera_open init in
  reachable s /\ mode s <> Camera /\
  liveStreams s = [0] /\
  liveStreams (run [UseCamera (Granted true); Back] s) = liveStreams s /\
  liveStreams (run [UseCamera (Granted true); Capture (mkVideo 0 0) true] s)
  = liveStreams s.
Proof.
  assert (mode (run analysed_with_camera_open init) <> Camera) as Hmode
    by (vm_compute; intros H; discriminate H).
  pose proof (camera_round_trip_releases_its_stream
                (run analysed_with_camera_open init) (mkVideo 0 0)
                (run_reachable _ _ reachable_init) Hmode) as H.
  cbv zeta in H. destruct H as (_ & Hc & _ & _ & Hp & _).
  cbv zeta. split; [apply run_reachable, reachable_init|].
  split; [exact Hmode|]. split; [reflexivity|]. split; [exact Hc | exact Hp].
Defined.

(** *** Analysis *)

(** X9.  An analysis that ran, whatever its outcome, leaves the image, its
    preview, the camera session and the browser's streams and URLs as they
    were, and leaves "Analyze" enabled: the user can always try again. *)
Theorem analyze_keeps_image_and_stays_enabled (s : State) (o : FetchOutcome) :
  canAnalyze s = true ->
  let s' := step s (Analyze o) in
  canAnalyze s' = true /\
  busy s' = false /\
  imageBlob s' = imageBlob s /\
  imageURL s' = imageURL s /\
  streamRef s' = streamRef s /\
  liveStreams s' = liveStreams s /\
  objectURLs s' = objectURLs s.
Proof.
  cells s. unfold step, canAnalyze. cbn [imageBlob busy].
  destruct b as [blob|], bz; try discriminate. intros _.
  destruct o as [msg | [[|] [msg | data]]]; handler; repeat split.
Qed.

Lemma analyze_keeps_image_and_stays_enabled_witness :
  let s := run [Gallery (Some 7)] init in
  let s' := step s (Analyze (NetworkError "Failed to fetch")) in
  canAnalyze s = true /\
  canAnalyze s' = true /\
  imageBlob s' = imageBlob s.
Proof.
  pose proof (analyze_keeps_image_and_stays_enabled
                (run [Gallery (Some 7)] init) (NetworkError "Failed to fetch")
                eq_refl) as H.
  cbv zeta in H. destruct H as (Hc & _ & Hb & _).
  cbv zeta. split; [reflexivity|]. split; [exact Hc | exact Hb].
Defined.

(** X10.  After a failed analysis the page shows an alert with a non-empty
    message and no result panel. *)
Theorem failed_analysis_shows_alert_only (s : State) (o : FetchOutcome) :
  canAnalyze s = true ->
  throws o = true ->
  let s' := step s (Analyze o) in
  renderResult s' = NoPanel /\
  exists m, renderError s' = Some m /\ m <> "".
Proof.
  intros Hcan Ho.
  destruct (analyze_failure s o Hcan Ho) as (Hm & _ & _ & He & _).
  cbv zeta. split.
  - unfold renderResult. rewrite Hm. reflexivity.
  - unfold renderError. rewrite He.
    assert (str_or
              match o with
              | NetworkError msg => msg
              | Responded res =>
                  match body res with
                  | NotJson msg => msg
                  | Json data =>
                      js_str_or (data_error data) "Failed to analyze image."
                  end
              end "Something went wrong." <> "") as Hne
      by (apply str_or_not_empty; discriminate).
    destruct (String.eqb_spec
                (str_or
                   match o with
                   | NetworkError msg => msg
                   | Responded res =>
                       match body res with
                       | NotJson msg => msg
                       | Json data =>
                           js_str_or (data_error data) "Failed to analyze image."
                       end
                   end "Something went wrong.") "") as [Heq | _].
    + exfalso. apply Hne. exact Heq.
    + eexists. split; [reflexivity | exact Hne].
Qed.

Lemma failed_analysis_shows_alert_only_witness :
  let s := run [Gallery (Some 7)] init in
  let s' := step s (Analyze (Responded (mkResponse false (Json None)))) in
  canAnalyze s = true /\
  throws (Responded (mkResponse false (Json None))) = true /\
  renderResult s' = NoPanel /\
  exists m, renderError s' = Some m /\ m <> "".
Proof.
  pose proof (failed_analysis_shows_alert_only
                (run [Gallery (Some 7)] init)
                (Responded (mkResponse false (Json None))) eq_refl eq_refl)
    as H.
  cbv zeta in H. cbv zeta. split; [reflexivity|]. split; [reflexivity|].
  exact H.
Defined.

(** X11.  When the service answers with a success status and the JSON value
    [null], the analysis counts as a success: the page is in [Result] on the
    last stage, but it shows neither a result panel nor an alert. *)
Theorem null_body_shows_nothing (s : State) :
  canAnalyze s = true ->
  let s' := step s (Analyze (Responded (mkResponse true (Json None)))) in
  mode s' = Result /\
  stepIndex s' = 2%Z /\
  result s' = None /\
  renderResult s' = NoPanel /\
  renderError s' = None.
Proof.
  intros Hcan.
  destruct (analyze_success s None Hcan) as (_ & Hi & Hm & Hr & He & _).
  cbv zeta. split; [exact Hm|]. split; [exact Hi|]. split; [exact Hr|].
  split.
  - unfold renderResult. rewrite Hm, Hr. reflexivity.
  - unfold renderError. rewrite He. reflexivity.
Qed.

Lemma null_body_shows_nothing_witness :
  let s := run [Gallery (Some 7)] init in
  let s' := step s (Analyze (Responded (mkResponse true (Json None)))) in
  canAnalyze s = true /\
  mode s' = Result /\
  renderResult s' = NoPanel /\
  renderError s' = None.
Proof.
  pose proof (null_body_shows_nothing (run [Gallery (Some 7)] init) eq_refl)
    as H.
  cbv zeta in H. destruct H as (Hm & _ & _ & Hp & He).
  cbv zeta. split; [reflexivity|]. split; [exact Hm|].
  split; [exact Hp | exact He].
Defined.

(** X12.  When the service answers with a success status and a body that
    reports a banana, the page is in [Result] with no alert and shows the
    banana card: the ripeness as label, the tip for that ripeness, both
    confidences as percentages, the clamped bar, and the two warning marks
    when the body carries them. *)
Theorem banana_is_shown_on_a_card (s : State) (d : Resp.Data) :
  canAnalyze s = true ->
  truthy_bool (Resp.is_banana d) = true ->
  let s' := step s (Analyze (Responded (mkResponse true (Json (Some d))))) in
  mode s' = Result /\
  renderError s' = None /\
  renderResult s'
  = BananaDetected
      {| label := Resp.ripeness d;
         confidenceText := formatPct (Resp.confidence d);
         barWidth := bar_width d;
         tip := tipFor (Resp.ripeness d);
         bananaConfidenceText := formatPct (Resp.banana_confidence d);
         tooDarkPill := Resp.warns_too_dark d;
         tooBlurryPill := Resp.warns_too_blurry d |}.
Proof.
  intros Hcan Hyes.
  destruct (analyze_success s (Some d) Hcan) as (_ & _ & Hm & Hr & He & _).
  cbv zeta. split; [exact Hm|]. split.
  - unfold renderError. rewrite He. reflexivity.
  - unfold renderResult. rewrite Hm, Hr, Hyes. reflexivity.
Qed.

Lemma banana_is_shown_on_a_card_witness :
  let s := run [Gallery (Some 7)] init in
  let s' :=
    step s (Analyze (Responded (mkResponse true (Json (Some ripe_banana))))) in
  canAnalyze s = true /\
  truthy_bool (Resp.is_banana ripe_banana) = true /\
  mode s' = Result /\
  renderResult s'
  = BananaDetected
      {| label := val "Ripe";
         confidenceText := Percent (Num 87);
         barWidth := Num (8700 # 100);
         tip := "Perfect to eat now. If you want to slow it down, refrigerate.";
         bananaConfidenceText := Percent (Num 95);
         tooDarkPill := false;
         tooBlurryPill := false |}.
Proof.
  pose proof (banana_is_shown_on_a_card (run [Gallery (Some 7)] init)
                ripe_banana eq_refl eq_refl) as H.
  cbv zeta in H. destruct H as (Hm & _ & Hcard).
  cbv zeta. split; [reflexivity|]. split; [reflexivity|].
  split; [exact Hm|]. rewrite Hcard. reflexivity.
Defined.

(** X13.  The continuation of [analyze] does not look at the state it
    resumes in.  If the user resets while the call is in flight, the page is
    first cleared, "Analyze" being disabled for want of an image; when the
    answer then arrives it is applied all the same: the page goes to
    [Result] with the late result although no image is held. *)
Theorem late_response_is_applied_after_reset
    (s : State) (data : option Resp.Data) :
  canAnalyze s = true ->
  let cleared := step (exec analyze_begin s) Reset in
  let late :=
    exec (analyze_settle (Responded (mkResponse true (Json data)))) cleared in
  mode cleared = Idle /\
  canAnalyze cleared = false /\
  mode late = Result /\
  result late = data /\
  stepIndex late = 2%Z /\
  imageBlob late = None /\
  imageURL late = None.
Proof.
  cells s. unfold canAnalyze at 1. cbn [imageBlob busy].
  destruct b as [blob|], bz; try discriminate. intros _.
  destruct sr as [st|]; handler; repeat split.
Qed.

Lemma late_response_is_applied_after_reset_witness :
  let s := run [Gallery (Some 7)] init in
  let cleared := step (exec analyze_begin s) Reset in
  let late :=
    exec (analyze_settle
            (Responded (mkResponse true (Json (Some ripe_banana))))) cleared in
  canAnalyze s = true /\
  mode cleared = Idle /\
  mode late = Result /\
  result late = Some ripe_banana /\
  imageBlob late = None.
Proof.
  pose proof (late_response_is_applied_after_reset
                (run [Gallery (Some 7)] init) (Some ripe_banana) eq_refl) as H.
  cbv zeta in H. destruct H as (Hc & _ & Hm & Hr & _ & Hb & _).
  cbv zeta. split; [reflexivity|]. split; [exact Hc|]. split; [exact Hm|].
  split; [exact Hr | exact Hb].
Defined.

(** *** Gallery *)

(** X14.  Picking a file, outside [Camera], replaces the image by that file
    under a new preview URL and goes to [Preview] with error, result and
    stage cleared; the camera session and [busy] are not touched, so that
    "Analyze" is enabled unless an analysis is in flight. *)
Theorem picking_a_file_replaces_the_image (s : State) (f : File) :
  mode s <> Camera ->
  let s' := step s (Gallery (Some f)) in
  mode s' = Preview /\
  imageBlob s' = Some (FileBlob f) /\
  imageURL s' = Some (nextURL s) /\
  error s' = None /\
  result s' = None /\
  stepIndex s' = (-1)%Z /\
  streamRef s' = streamRef s /\
  liveStreams s' = liveStreams s /\
  busy s' = busy s /\
  canAnalyze s' = negb (busy s).
Proof.
  cells s. destruct m; try congruence; intros _; handler; repeat split.
Qed.

Lemma picking_a_file_replaces_the_image_witness :
  let s :=
    run [Gallery (Some 7);
         Analyze (Responded (mkResponse true (Json (Some ripe_banana))))] init in
  let s' := step s (Gallery (Some 8)) in
  mode s <> Camera /\
  result s = Some ripe_banana /\
  mode s' = Preview /\
  imageBlob s' = Some (FileBlob 8) /\
  result s' = None /\
  canAnalyze s' = true.
Proof.
  assert (mode (run [Gallery (Some 7);
                     Analyze (Responded
                                (mkResponse true (Json (Some ripe_banana))))]
                  init) <> Camera) as Hmode
    by (vm_compute; intros H; discriminate H).
  pose proof (picking_a_file_replaces_the_image _ 8 Hmode) as H.
  cbv zeta in H. destruct H as (Hm & Hb & _ & _ & Hr & _ & _ & _ & _ & Hc).
  cbv zeta. split; [exact Hmode|]. split; [reflexivity|].
  split; [exact Hm|]. split; [exact Hb|]. split; [exact Hr|].
  etransitivity; [exact Hc | reflexivity].
Defined.

(** X15.  Opening the file dialog and choosing nothing is not a no-op:
    [pickFromGallery] has already cleared error, result and stage.  The mode,
    the image and its preview stay, and no URL is created; in [Result] the
    result panel is gone although the mode still is [Result]. *)
Theorem cancelled_file_dialog_clears_the_result (s : State) :
  mode s <> Camera ->
  let s' := step s (Gallery None) in
  mode s' = mode s /\
  imageBlob s' = imageBlob s /\
  imageURL s' = imageURL s /\
  objectURLs s' = objectURLs s /\
  error s' = None /\
  result s' = None /\
  stepIndex s' = (-1)%Z /\
  renderResult s' = NoPanel.
Proof.
  cells s. destruct m; try congruence; intros _; handler; repeat split.
Qed.

Lemma cancelled_file_dialog_clears_the_result_witness :
  let s :=
    run [Gallery (Some 7);
         Analyze (Responded (mkResponse true (Json (Some ripe_banana))))] init in
  let s' := step s (Gallery None) in
  mode s <> Camera /\
  mode s = Result /\
  renderResult s <> NoPanel /\
  mode s' = Result /\
  renderResult s' = NoPanel.
Proof.
  assert (mode (run [Gallery (Some 7);
                     Analyze (Responded
                                (mkResponse true (Json (Some ripe_banana))))]
                  init) <> Camera) as Hmode
    by (vm_compute; intros H; discriminate H).
  pose proof (cancelled_file_dialog_clears_the_result _ Hmode) as H.
  cbv zeta in H. destruct H as (Hm & _ & _ & _ & _ & _ & _ & Hp).
  cbv zeta. split; [exact Hmode|]. split; [reflexivity|].
  split; [vm_compute; intros E; discriminate E|].
  split; [etransitivity; [exact Hm | reflexivity] | exact Hp].
Defined.

(** *** Between operations *)

Lemma step_preview_ok (s : State) (op : Op) :
  preview_ok s -> preview_ok (step s op).
Proof.
  unfold preview_ok. cells s. intros [Hboth Hlast].
  destruct op as [o | | v enc | file | | o].
  - destruct m, o as [|[|]]; handler; split; assumption.
  - destruct m, sr; handler; split; assumption.
  - destruct m, enc, sr; handler; try (split; assumption);
      (split; [split; discriminate
              | intros x [= <-]; split; [left|]; reflexivity]).
  - destruct m, file; handler; try (split; assumption);
      (split; [split; discriminate
              | intros x [= <-]; split; [left|]; reflexivity]).
  - destruct sr; handler; (split; [tauto | discriminate]).
  - destruct b, bz; handler; try (split; assumption).
    destruct o as [msg | [[|] [msg | data]]]; handler; split; assumption.
Qed.

Lemma step_settled (s : State) (op : Op) :
  settled s -> settled (step s op).
Proof.
  unfold settled. cells s. intros (Hbusy & Hmode & Hres & Herr). subst bz.
  destruct op as [o | | v enc | file | | o].
  - destruct m, o as [|[|]]; handler;
      repeat split; try assumption; try discriminate; congruence.
  - destruct m, sr; handler;
      repeat split; try assumption; try discriminate; congruence.
  - destruct m, enc, sr; handler;
      repeat split; try assumption; try discriminate; congruence.
  - destruct m, file; handler;
      repeat split; try assumption; try discriminate; congruence.
  - destruct sr; handler; repeat split; try discriminate; congruence.
  - destruct b; handler; [|repeat split; assumption].
    destruct o as [msg | [[|] [msg | data]]]; handler;
      repeat split; try discriminate; congruence.
Qed.

Lemma reachable_preview_ok (s : State) : reachable s -> preview_ok s.
Proof.
  induction 1 as [|s op _ IH].
  - split; [split; reflexivity | discriminate].
  - apply step_preview_ok, IH.
Qed.

Lemma reachable_settled (s : State) : reachable s -> settled s.
Proof.
  induction 1 as [|s op _ IH].
  - repeat split; discriminate.
  - apply step_settled, IH.
Qed.

(** X16.  In every state reached by operations run one after the other, the
    page holds an image exactly when it shows a preview, and the preview
    shown is a live object URL, the one created last. *)
Theorem preview_shown_is_the_latest_url (s : State) :
  reachable s ->
  (imageBlob s = None <-> imageURL s = None) /\
  (forall u, imageURL s = Some u -> In u (objectURLs s) /\ nextURL s = S u).
Proof. intros Hs. exact (reachable_preview_ok s Hs). Qed.

Lemma preview_shown_is_the_latest_url_witness :
  let s := run [Gallery (Some 7); Gallery (Some 8)] init in
  reachable s /\
  imageURL s = Some 1 /\
  (imageBlob s = None <-> imageURL s = None) /\
  (forall u, imageURL s = Some u -> In u (objectURLs s) /\ nextURL s = S u).
Proof.
  cbv zeta. split; [apply run_reachable, reachable_init|].
  split; [reflexivity|].
  apply preview_shown_is_the_latest_url, run_reachable, reachable_init.
Defined.

(** X17.  In every state reached by operations run one after the other, an
    alert and a result panel are never on the page together: a result is
    held, and the mode is [Result], only with no error set. *)
Theorem no_alert_beside_a_result (s : State) :
  reachable s ->
  (result s <> None -> error s = None) /\
  (mode s = Result -> error s = None) /\
  (renderResult s <> NoPanel -> renderError s = None).
Proof.
  intros Hs. destruct (reachable_settled s Hs) as (_ & _ & Hres & Herr).
  split; [exact Hres|]. split; [exact Herr|].
  unfold renderResult, renderError. intros Hpanel.
  destruct (mode s); try congruence.
  rewrite Herr; reflexivity.
Qed.

Lemma no_alert_beside_a_result_witness :
  let s := run analysed_with_camera_open init in
  reachable s /\
  renderResult s <> NoPanel /\
  renderError s = None.
Proof.
  assert (renderResult (run analysed_with_camera_open init) <> NoPanel)
    as Hpanel by (vm_compute; intros H; discriminate H).
  pose proof (no_alert_beside_a_result
                (run analysed_with_camera_open init)
                (run_reachable _ _ reachable_init)) as (_ & _ & H).
  cbv zeta. split; [apply run_reachable, reachable_init|].
  split; [exact Hpanel | exact (H Hpanel)].
Defined.

(** X18.  Every operation that has run to completion leaves [busy] unset
    and the mode other than [Analyzing]: between operations "Analyze" is
    enabled exactly when an image is held. *)
Theorem analyze_enabled_when_image_held (s : State) :
  reachable s ->
  busy s = false /\
  mode s <> Analyzing /\
  (canAnalyze s = true <-> imageBlob s <> None).
Proof.
  intros Hs. destruct (reachable_settled s Hs) as (Hbusy & Hmode & _).
  split; [exact Hbusy|]. split; [exact Hmode|].
  unfold canAnalyze. rewrite Hbusy.
  destruct (imageBlob s); cbn; split; congruence.
Qed.

Lemma analyze_enabled_when_image_held_witness :
  let s :=
    run [Gallery (Some 7); Analyze (NetworkError "Failed to fetch")] init in
  reachable s /\
  busy s = false /\
  mode s <> Analyzing /\
  (canAnalyze s = true <-> imageBlob s <> None).
Proof.
  cbv zeta. split; [apply run_reachable, reachable_init|].
  apply analyze_enabled_when_image_held, run_reachable, reachable_init.
Defined.

(** *** What is rendered *)

Lemma Qle_bool_false (x y : Q) : Qle_bool x y = false -> (y < x)%Q.
Proof.
  intros H. apply Qnot_le_lt. intros Hle. apply Qle_bool_iff in Hle.
  congruence.
Qed.

(** The bar of the model, by cases; in the middle case the width is the
    exact product, where the code has the double nearest to it. *)
Lemma bar_width_cases (r : Resp.Data) (q : Q) :
  Resp.confidence r = val (Num q) ->
  exists w,
    bar_width r = Num w /\
    ((q <= 0)%Q -> w = 0%Q) /\
    ((0 <= q)%Q /\ (q <= 1)%Q -> (w == q * 100)%Q) /\
    ((1 <= q)%Q -> w = 100%Q).
Proof.
  intros H. unfold bar_width. rewrite H. cbn [js_num_or0 truthy_number].
  destruct (Qeq_bool q 0) eqn:Hzero; cbn [negb times100].
  - apply Qeq_bool_iff in Hzero. exists 0%Q. split; [reflexivity|].
    repeat split; intros; lra.
  - cbn [Math_max0]. destruct (Qle_bool (q * 100) 0) eqn:Hneg.
    + apply Qle_bool_iff in Hneg. exists 0%Q. split; [reflexivity|].
      repeat split; intros; lra.
    + apply Qle_bool_false in Hneg. cbn [Math_min100].
      destruct (Qle_bool 100 (q * 100)) eqn:Hbig.
      * apply Qle_bool_iff in Hbig. exists 100%Q. split; [reflexivity|].
        repeat split; intros; lra.
      * apply Qle_bool_false in Hbig. exists (q * 100)%Q.
        split; [reflexivity|]. repeat split; intros; lra.
Qed.

(** X19.  The bar saturates: for a result whose confidence is a finite
    number, the bar is exactly empty when the confidence is 0 or less, and
    exactly full when it is 1 or more. *)
Theorem bar_width_saturates (r : Resp.Data) (q : Q) :
  Resp.confidence r = val (Num q) ->
  ((q <= 0)%Q -> bar_width r = Num 0) /\
  ((1 <= q)%Q -> bar_width r = Num 100).
Proof.
  intros H. destruct (bar_width_cases r q H) as (w & Hw & Hlow & _ & Hhigh).
  rewrite Hw. split; intros Hq.
  - rewrite (Hlow Hq). reflexivity.
  - rewrite (Hhigh Hq). reflexivity.
Qed.

Lemma bar_width_saturates_witness :
  Resp.confidence overconfident = val (Num (35 # 10)) /\
  (1 <= 35 # 10)%Q /\
  bar_width overconfident = Num 100.
Proof.
  assert (1 <= 35 # 10)%Q as Hq by (vm_compute; discriminate).
  split; [reflexivity|]. split; [exact Hq|].
  exact (proj2 (bar_width_saturates overconfident (35 # 10) eq_refl) Hq).
Defined.

(** X20.  The bar never shrinks when the confidence grows: of two results
    with finite confidences, the one with the larger confidence has the
    wider, or an equally wide, bar. *)
Theorem bar_width_is_monotone (r1 r2 : Resp.Data) (q1 q2 : Q) :
  Resp.confidence r1 = val (Num q1) ->
  Resp.confidence r2 = val (Num q2) ->
  (q1 <= q2)%Q ->
  exists w1 w2,
    bar_width r1 = Num w1 /\ bar_width r2 = Num w2 /\ (w1 <= w2)%Q.
Proof.
  intros H1 H2 Hle.
  destruct (bar_width_cases r1 q1 H1) as (w1 & Hw1 & Hlow1 & Hmid1 & Hhigh1).
  destruct (bar_width_cases r2 q2 H2) as (w2 & Hw2 & Hlow2 & Hmid2 & Hhigh2).
  exists w1, w2. split; [exact Hw1|]. split; [exact Hw2|].
  destruct (Qlt_le_dec 0 q1) as [Hpos1 | Hneg1].
  - destruct (Qlt_le_dec q2 1) as [Hsmall2 | Hbig2].
    + assert (w1 == q1 * 100)%Q by (apply Hmid1; split; lra).
      assert (w2 == q2 * 100)%Q by (apply Hmid2; split; lra).
      lra.
    + rewrite (Hhigh2 Hbig2).
      destruct (Qlt_le_dec q1 1) as [Hsmall1 | Hbig1].
      * assert (w1 == q1 * 100)%Q by (apply Hmid1; split; lra). lra.
      * rewrite (Hhigh1 Hbig1). lra.
  - rewrite (Hlow1 Hneg1).
    destruct (Qlt_le_dec 0 q2) as [Hpos2 | Hneg2].
    + destruct (Qlt_le_dec q2 1) as [Hsmall2 | Hbig2].
      * assert (w2 == q2 * 100)%Q by (apply Hmid2; split; lra). lra.
      * rewrite (Hhigh2 Hbig2). lra.
    + rewrite (Hlow2 Hneg2). lra.
Qed.

Lemma bar_width_is_monotone_witness :
  Resp.confidence ripe_banana = val (Num (87 # 100)) /\
  Resp.confidence overconfident = val (Num (35 # 10)) /\
  (87 # 100 <= 35 # 10)%Q /\
  exists w1 w2,
    bar_width ripe_banana = Num w1 /\ bar_width overconfident = Num w2 /\
    (w1 <= w2)%Q.
Proof.
  assert (87 # 100 <= 35 # 10)%Q as Hle by (vm_compute; discriminate).
  split; [reflexivity|]. split; [reflexivity|]. split; [exact Hle|].
  exact (bar_width_is_monotone ripe_banana overconfident _ _
           eq_refl eq_refl Hle).
Defined.

(** X21.  [tipFor] answers with its fallback tip exactly when the ripeness
    is none of the four labels, spelled as the service spells them; and the
    four labels have four different tips. *)
Theorem tipFor_fallback_and_labels (x : js string) :
  (tipFor x = "Take a clear banana photo in good light." <->
   x <> val "Green" /\ x <> val "Turning" /\
   x <> val "Ripe" /\ x <> val "Overripe") /\
  tipFor (val "Green") <> tipFor (val "Turning") /\
  tipFor (val "Green") <> tipFor (val "Ripe") /\
  tipFor (val "Green") <> tipFor (val "Overripe") /\
  tipFor (val "Turning") <> tipFor (val "Ripe") /\
  tipFor (val "Turning") <> tipFor (val "Overripe") /\
  tipFor (val "Ripe") <> tipFor (val "Overripe") /\
  tipFor (val "ripe") = "Take a clear banana photo in good light.".
Proof.
  split.
  - destruct x as [ | | r]; cbn [tipFor].
    + split; [intros _; repeat split; discriminate | reflexivity].
    + split; [intros _; repeat split; discriminate | reflexivity].
    + destruct (String.eqb_spec r "Green") as [-> | Hg].
      { split; [discriminate | intros (H & _); congruence]. }
      destruct (String.eqb_spec r "Turning") as [-> | Ht].
      { split; [discriminate | intros (_ & H & _); congruence]. }
      destruct (String.eqb_spec r "Ripe") as [-> | Hr].
      { split; [discriminate | intros (_ & _ & H & _); congruence]. }
      destruct (String.eqb_spec r "Overripe") as [-> | Ho].
      { split; [discriminate | intros (_ & _ & _ & H); congruence]. }
      split; [intros _; repeat split; congruence | reflexivity].
  - vm_compute. repeat split; intros H; discriminate H.
Qed.

(** X22.  Between operations the progress list shows one of three
    pictures: nothing marked; the first stage done and the second active;
    the first two done and the third active.  The first stage is never
    the active one, and the last is never marked done. *)
Theorem progress_list_pictures (s : State) :
  reachable s ->
  (stepIndex s = (-1)%Z /\
   renderSteps s
   = [ {| stepLabel := "Image Selected"; active := false; done := false |};
       {| stepLabel := "Banana Check"; active := false; done := false |};
       {| stepLabel := "Ripeness Result"; active := false; done := false |} ])
  \/
  (stepIndex s = 1%Z /\
   renderSteps s
   = [ {| stepLabel := "Image Selected"; active := false; done := true |};
       {| stepLabel := "Banana Check"; active := true; done := false |};
       {| stepLabel := "Ripeness Result"; active := false; done := false |} ])
  \/
  (stepIndex s = 2%Z /\
   renderSteps s
   = [ {| stepLabel := "Image Selected"; active := false; done := true |};
       {| stepLabel := "Banana Check"; active := false; done := true |};
       {| stepLabel := "Ripeness Result"; active := true; done := false |} ]).
Proof.
  intros Hs. destruct (reachable_stages_ok s Hs) as [_ Hstage].
  unfold renderSteps.
  destruct Hstage as [H | [[H _] | [H _]]]; rewrite H;
    [left | right; right | right; left]; split; reflexivity.
Qed.

Lemma progress_list_pictures_witness :
  let s := run analysed_with_camera_open init in
  reachable s /\
  ((stepIndex s = (-1)%Z /\
    renderSteps s
    = [ {| stepLabel := "Image Selected"; active := false; done := false |};
        {| stepLabel := "Banana Check"; active := false; done := false |};
        {| stepLabel := "Ripeness Result"; active := false; done := false |} ])
   \/
   (stepIndex s = 1%Z /\
    renderSteps s
    = [ {| stepLabel := "Image Selected"; active := false; done := true |};
        {| stepLabel := "Banana Check"; active := true; done := false |};
        {| stepLabel := "Ripeness Result"; active := false; done := false |} ])
   \/
   (stepIndex s = 2%Z /\
    renderSteps s
    = [ {| stepLabel := "Image Selected"; active := false; done := true |};
        {| stepLabel := "Banana Check"; active := false; done := true |};
        {| stepLabel := "Ripeness Result"; active := true; done := false |} ])).
Proof.
  cbv zeta. split; [apply run_reachable, reachable_init|].
  apply progress_list_pictures, run_reachable, reachable_init.
Defined.

(** X23.  What an analysis leaves on the page does not depend on the
    analyses before it: asking again after any outcome gives the mode,
    result, error, stage, [busy] and image that the second answer alone
    would have given. *)
Theorem analysis_forgets_earlier_analyses (s : State) (o1 o2 : FetchOutcome) :
  canAnalyze s = true ->
  let twice := run [Analyze o1; Analyze o2] s in
  let once := run [Analyze o2] s in
  mode twice = mode once /\
  result twice = result once /\
  error twice = error once /\
  stepIndex twice = stepIndex once /\
  busy twice = busy once /\
  imageBlob twice = imageBlob once /\
  imageURL twice = imageURL once /\
  renderResult twice = renderResult once.
Proof.
  cells s. unfold canAnalyze. cbn [imageBlob busy].
  destruct b as [blob|], bz; try discriminate. intros _.
  destruct o1 as [msg1 | [[|] [msg1 | data1]]];
    destruct o2 as [msg2 | [[|] [msg2 | data2]]];
    handler; repeat split.
Qed.

Lemma analysis_forgets_earlier_analyses_witness :
  let s := run [Gallery (Some 7)] init in
  let good := Responded (mkResponse true (Json (Some ripe_banana))) in
  let twice := run [Analyze (NetworkError "Failed to fetch"); Analyze good] s in
  canAnalyze s = true /\
  mode twice = Result /\
  error twice = None /\
  result twice = Some ripe_banana.
Proof.
  pose proof (analysis_forgets_earlier_analyses
                (run [Gallery (Some 7)] init)
                (NetworkError "Failed to fetch")
                (Responded (mkResponse true (Json (Some ripe_banana))))
                eq_refl) as H.
  cbv zeta in H. destruct H as (Hm & Hr & He & _).
  cbv zeta. split; [reflexivity|].
  split; [etransitivity; [exact Hm | reflexivity]|].
  split; [etransitivity; [exact He | reflexivity]|].
  etransitivity; [exact Hr | reflexivity].
Defined.

Lemma remove_only (x : Stream) : remove Nat.eq_dec x [x] = [].
Proof. cbn. destruct (Nat.eq_dec x x); [reflexivity | congruence]. Qed.

Lemma step_camera_kept (s : State) (op : Op) :
  strands_the_camera s op = false ->
  camera_kept s -> camera_kept (step s op).
Proof.
  unfold camera_kept, strands_the_camera. cells s. intros Hop Hkept.
  destruct Hkept as [(-> & st & -> & ->) | (Hmode & -> & ->)].
  - destruct op as [[|[|]] | | v [|] | file | | o]; try discriminate;
      handler; rewrite ?remove_only;
      solve [ left; split; [reflexivity | exists st; split; reflexivity]
            | right; repeat split; discriminate ].
  - destruct m; try congruence;
      destruct op as [[|[|]] | | v [|] | [f|] | | o]; try discriminate;
      try (destruct b, bz; try destruct o as [msg | [[|] [msg | data]]]);
      handler;
      solve [ left; split; [reflexivity | eexists; split; reflexivity]
            | right; repeat split; discriminate ].
Qed.

Lemma reachable_camera_kept (s : State) :
  reachable_with_camera_kept s -> camera_kept s.
Proof.
  induction 1 as [|s op _ IH Hop].
  - right. repeat split. discriminate.
  - apply step_camera_kept; assumption.
Qed.

(** X24.  For operations run one after the other, each to completion: as
    long as the video plays whenever the camera is granted and no analysis
    is asked for while the camera is open, the camera is in order: a
    session is held exactly while the mode is [Camera], at most one stream
    runs, and it is the one held. *)
Theorem camera_in_order_unless_stranded (s : State) :
  reachable_with_camera_kept s ->
  (streamRef s <> None <-> mode s = Camera) /\
  List.length (liveStreams s) <= 1 /\
  (forall st, In st (liveStreams s) -> streamRef s = Some st).
Proof.
  intros Hs.
  destruct (reachable_camera_kept s Hs)
    as [(Hmode & st & Href & Hlive) | (Hmode & Href & Hlive)];
    rewrite Href, Hlive.
  - split; [split; [intros _; exact Hmode | discriminate]|].
    split; [cbn; lia|]. intros x [<- | []]. reflexivity.
  - split; [split; [congruence | intros H; contradiction]|].
    split; [cbn; lia|]. intros x [].
Qed.

Lemma camera_in_order_unless_stranded_witness :
  let s := run [UseCamera (Granted true); Capture (mkVideo 640 480) false] init in
  reachable_with_camera_kept s /\
  mode s = Camera /\
  (streamRef s <> None <-> mode s = Camera) /\
  List.length (liveStreams s) <= 1 /\
  (forall st, In st (liveStreams s) -> streamRef s = Some st).
Proof.
  assert (reachable_with_camera_kept
            (run [UseCamera (Granted true);
                  Capture (mkVideo 640 480) false] init)) as Hs.
  { apply (kept_step _ (Capture (mkVideo 640 480) false));
      [apply (kept_step _ (UseCamera (Granted true)));
         [apply kept_init | reflexivity]
      | reflexivity]. }
  cbv zeta. split; [exact Hs|]. split; [reflexivity|].
  exact (camera_in_order_unless_stranded _ Hs).
Defined.
